(** * GSConnect WebExtension (Manifest V3): the background service worker

    A shallow embedding of [webextension/js/background.js]: the script's
    globals ([State], [reconnectDelay], [reconnectTimer],
    [reconnectResetTimer]) and the part of the browser it talks to (context
    menu registry, timeouts, native-messaging ports, runtime messages,
    console) are one record, [World]; every function of the script is a
    computation in a state-and-exception monad over it.

    Conventions.
    - Every function of the script is [async].  A handler is modelled as
      running to completion: an [await] is resolved on the spot, a promise
      that is not awaited is settled where it is made, and handlers do not
      interleave.
    - [reconnectDelay] is a JavaScript number, a binary64 ([Number]).  The
      script starts it at 100 and doubles it, so that every finite value it
      takes is an integer [100 * 2^k], which binary64 holds exactly; the
      doubling that would pass the largest binary64 gives [Infinity]
      ([times_two]).  [reconnectDelay * 0.9] is then [90 * 2^k], again
      exact, and is written [z * 9 / 10] on the integer ([nine_tenths]).
    - The calls on [browser.action], [browser.contextMenus] and
      [browser.tabs] succeed; the calls that may fail are
      [Port.postMessage] and [runtime.sendMessage], the two the script
      sends messages with.  [tabs.onActivated] is taken up where
      [tabs.get] has resolved.
    - [browser.i18n.getMessage] is a lookup in the locale files, which this
      development keeps symbolic ([Text]). *)

From Stdlib Require Import ZArith List String Ascii Bool Lia.
Import ListNotations.

Local Open Scope string_scope.
Local Open Scope Z_scope.

(** ** JavaScript values that cross the script's interfaces *)

(** A paired device, as the native-messaging host reports it. *)
Record Device := mkDevice {
  id : string;
  name : string;
  share : bool;
  telephony : bool;
}.

(** The [data] member of a message.  [DShare device url action] is the object
    [{device, url, action}]; each member may be [undefined]. *)
Inductive Data :=
| DUndefined
| DBool (b : bool)
| DDevices (l : list Device)
| DShare (device : option string) (url : option string) (action : option string).

(** A message [{type, data}].  [type = None] is a missing [type] member. *)
Record Message := mkMessage {
  type : option string;
  data : Data;
}.

(** ToBoolean on strings that may be [undefined]. *)
Definition truthy_str (s : option string) : bool :=
  match s with
  | Some "" => false
  | Some _ => true
  | None => false
  end.

(** ToBoolean on [Data]: arrays and objects are truthy. *)
Definition truthy (d : Data) : bool :=
  match d with
  | DUndefined => false
  | DBool b => b
  | DDevices _ => true
  | DShare _ _ _ => true
  end.

(** [a || b] on strings that may be [undefined]. *)
Definition js_or (a b : option string) : option string :=
  if truthy_str a then a else b.

(** [String.prototype.includes]. *)
Fixpoint includes (sub s : string) : bool :=
  prefix sub s ||
  match s with
  | EmptyString => false
  | String _ rest => includes sub rest
  end.

(** [String.prototype.split] with a one-character separator. *)
Fixpoint split (sep : ascii) (s : string) : list string :=
  match s with
  | EmptyString => [EmptyString]
  | String c rest =>
      if Ascii.eqb c sep then EmptyString :: split sep rest
      else match split sep rest with
           | piece :: pieces => String c piece :: pieces
           | [] => [String c EmptyString]
           end
  end.

Record Error := mkError { message : string }.

Record Tab := mkTab {
  tab_id : Z;
  tab_url : option string;
}.

Record MessageSender := mkSender { sender_url : option string }.

(** [OnClickData], the members the script reads. *)
Record OnClickData := mkInfo {
  menuItemId : string;
  linkUrl : option string;
  srcUrl : option string;
  frameUrl : option string;
  pageUrl : option string;
}.

(** A text shown to the user, with the locale lookup kept symbolic:
    [Localized key] is [browser.i18n.getMessage(key)] and
    [LocalizedWith key substitutions] is
    [browser.i18n.getMessage(key, substitutions)]. *)
Inductive Text :=
| Literal (s : string)
| Localized (key : string).

Inductive Title :=
| Plain (t : Text)
| LocalizedWith (key : string) (substitutions : list Text).

(** The argument of [browser.contextMenus.create]. *)
Record CreateProperties := mkItem {
  menu_id : string;
  title : Title;
  parentId : option string;
  contexts : option (list string);
}.

Record Port := mkPort {
  port_name : string;
  port_id : nat;
}.

(** What a timeout runs: [connect], or the arrow function
    [() => { reconnectDelay = 100; }] of [connect]. *)
Inductive Callback :=
| cb_connect
| cb_resetDelay.

(** A JavaScript number, as far as the script computes with one: [Finite z]
    is the binary64 number whose value is the integer [z]; the two
    infinities are what a product that overflows gives. *)
Inductive Number :=
| Finite (z : Z)
| Infinity
| NegInfinity.

Coercion Finite : Z >-> Number.

(** [Number.MAX_VALUE], the largest finite binary64: [(2^53 - 1) * 2^971]. *)
Definition MAX_VALUE : Z := 2 ^ 1024 - 2 ^ 971.

(** The binary64 number an integer result comes to: itself in range,
    an infinity out of range. *)
Definition number (z : Z) : Number :=
  if MAX_VALUE <? z then Infinity
  else if z <? - MAX_VALUE then NegInfinity
  else Finite z.

(** [x * 2]: exact on a binary64 integer, short of overflow. *)
Definition times_two (x : Number) : Number :=
  match x with
  | Finite z => number (z * 2)
  | Infinity => Infinity
  | NegInfinity => NegInfinity
  end.

(** [x * 0.9]. *)
Definition nine_tenths (x : Number) : Number :=
  match x with
  | Finite z => Finite (z * 9 / 10)
  | Infinity => Infinity
  | NegInfinity => NegInfinity
  end.

(** The milliseconds the browser waits for a delay handed to [setTimeout]:
    a finite delay is taken as given, a negative one as zero; an infinite
    one is zero too, as the conversion to a long makes it. *)
Definition wait (ms : Number) : Z :=
  match ms with
  | Finite z => Z.max 0 z
  | Infinity | NegInfinity => 0
  end.

Record Timeout := mkTimeout {
  timeout_id : Z;
  callback : Callback;
  delay : Number;
  due : Z;
}.

Inductive LogLine :=
| Warn (s : string)
| Err (s : string).

Inductive ActionCall :=
| Enable (tabId : option Z)
| Disable (tabId : option Z).

(** ** The world: script globals and browser *)

Record StateT := mkState {
  connected : Data;
  devices : Data;
  port : option Port;
}.

Record Browser := mkBrowser {
  contextMenus : list CreateProperties;  (* items created since the last removeAll *)
  timeouts : list Timeout;               (* armed timeouts *)
  nextTimeout : Z;                       (* the id the next setTimeout returns *)
  clock : Z;                             (* milliseconds *)
  nextPort : nat;
  posted : list (Port * Message);        (* Port.postMessage calls, in order *)
  sentMessages : list Message;           (* runtime.sendMessage calls, in order *)
  console : list LogLine;
  badgeText : string;
  badgeColor : list Z;
  actionCalls : list ActionCall;
  lastError : option Error;              (* browser.runtime.lastError *)
  portFault : option Error;              (* what Port.postMessage throws, if anything *)
  sendFault : option Error;              (* what runtime.sendMessage rejects with *)
}.

Record World := mkWorld {
  State : StateT;
  reconnectDelay : Number;
  reconnectTimer : option Z;             (* null, or a timeout id *)
  reconnectResetTimer : option Z;
  browser : Browser;
}.

Definition set_connected (v : Data) (s : StateT) : StateT :=
  mkState v (devices s) (port s).
Definition set_devices (v : Data) (s : StateT) : StateT :=
  mkState (connected s) v (port s).
Definition set_port (v : option Port) (s : StateT) : StateT :=
  mkState (connected s) (devices s) v.

Definition with_State (f : StateT -> StateT) (w : World) : World :=
  mkWorld (f (State w)) (reconnectDelay w) (reconnectTimer w)
          (reconnectResetTimer w) (browser w).
Definition set_reconnectDelay (v : Number) (w : World) : World :=
  mkWorld (State w) v (reconnectTimer w) (reconnectResetTimer w) (browser w).
Definition set_reconnectTimer (v : option Z) (w : World) : World :=
  mkWorld (State w) (reconnectDelay w) v (reconnectResetTimer w) (browser w).
Definition set_reconnectResetTimer (v : option Z) (w : World) : World :=
  mkWorld (State w) (reconnectDelay w) (reconnectTimer w) v (browser w).
Definition with_browser (f : Browser -> Browser) (w : World) : World :=
  mkWorld (State w) (reconnectDelay w) (reconnectTimer w)
          (reconnectResetTimer w) (f (browser w)).

Definition set_contextMenus v (b : Browser) : Browser :=
  mkBrowser v (timeouts b) (nextTimeout b) (clock b) (nextPort b) (posted b)
            (sentMessages b) (console b) (badgeText b) (badgeColor b)
            (actionCalls b) (lastError b) (portFault b) (sendFault b).
Definition set_timeouts v (b : Browser) : Browser :=
  mkBrowser (contextMenus b) v (nextTimeout b) (clock b) (nextPort b) (posted b)
            (sentMessages b) (console b) (badgeText b) (badgeColor b)
            (actionCalls b) (lastError b) (portFault b) (sendFault b).
Definition set_nextTimeout v (b : Browser) : Browser :=
  mkBrowser (contextMenus b) (timeouts b) v (clock b) (nextPort b) (posted b)
            (sentMessages b) (console b) (badgeText b) (badgeColor b)
            (actionCalls b) (lastError b) (portFault b) (sendFault b).
Definition set_clock v (b : Browser) : Browser :=
  mkBrowser (contextMenus b) (timeouts b) (nextTimeout b) v (nextPort b) (posted b)
            (sentMessages b) (console b) (badgeText b) (badgeColor b)
            (actionCalls b) (lastError b) (portFault b) (sendFault b).
Definition set_nextPort v (b : Browser) : Browser :=
  mkBrowser (contextMenus b) (timeouts b) (nextTimeout b) (clock b) v (posted b)
            (sentMessages b) (console b) (badgeText b) (badgeColor b)
            (actionCalls b) (lastError b) (portFault b) (sendFault b).
Definition set_posted v (b : Browser) : Browser :=
  mkBrowser (contextMenus b) (timeouts b) (nextTimeout b) (clock b) (nextPort b) v
            (sentMessages b) (console b) (badgeText b) (badgeColor b)
            (actionCalls b) (lastError b) (portFault b) (sendFault b).
Definition set_sentMessages v (b : Browser) : Browser :=
  mkBrowser (contextMenus b) (timeouts b) (nextTimeout b) (clock b) (nextPort b)
            (posted b) v (console b) (badgeText b) (badgeColor b)
            (actionCalls b) (lastError b) (portFault b) (sendFault b).
Definition set_console v (b : Browser) : Browser :=
  mkBrowser (contextMenus b) (timeouts b) (nextTimeout b) (clock b) (nextPort b)
            (posted b) (sentMessages b) v (badgeText b) (badgeColor b)
            (actionCalls b) (lastError b) (portFault b) (sendFault b).
Definition set_badgeText v (b : Browser) : Browser :=
  mkBrowser (contextMenus b) (timeouts b) (nextTimeout b) (clock b) (nextPort b)
            (posted b) (sentMessages b) (console b) v (badgeColor b)
            (actionCalls b) (lastError b) (portFault b) (sendFault b).
Definition set_badgeColor v (b : Browser) : Browser :=
  mkBrowser (contextMenus b) (timeouts b) (nextTimeout b) (clock b) (nextPort b)
            (posted b) (sentMessages b) (console b) (badgeText b) v
            (actionCalls b) (lastError b) (portFault b) (sendFault b).
Definition set_actionCalls v (b : Browser) : Browser :=
  mkBrowser (contextMenus b) (timeouts b) (nextTimeout b) (clock b) (nextPort b)
            (posted b) (sentMessages b) (console b) (badgeText b) (badgeColor b)
            v (lastError b) (portFault b) (sendFault b).

(** ** The monad: state and exceptions *)

Inductive Outcome (A : Type) :=
| Returned (a : A)
| Thrown (e : Error).
Arguments Returned {A} a.
Arguments Thrown {A} e.

Definition Js (A : Type) : Type := World -> Outcome A * World.

Definition ret {A} (a : A) : Js A := fun w => (Returned a, w).

Definition bind {A B} (m : Js A) (k : A -> Js B) : Js B :=
  fun w =>
    match m w with
    | (Returned a, w') => k a w'
    | (Thrown e, w') => (Thrown e, w')
    end.

Definition throw {A} (e : Error) : Js A := fun w => (Thrown e, w).

(** [try { body } catch (e) { handler e }]. *)
Definition try_catch (body : Js unit) (handler : Error -> Js unit) : Js unit :=
  fun w =>
    match body w with
    | (Returned a, w') => (Returned a, w')
    | (Thrown e, w') => handler e w'
    end.

Definition get : Js World := fun w => (Returned w, w).
Definition modify (f : World -> World) : Js unit := fun w => (Returned tt, f w).

Notation "x <- m ;; k" := (bind m (fun x => k))
  (at level 61, m at next level, right associativity).
Notation "m ;; k" := (bind m (fun _ => k))
  (at level 61, right associativity).

(** [for (const x of l) body]. *)
Fixpoint for_of {A} (l : list A) (body : A -> Js unit) : Js unit :=
  match l with
  | [] => ret tt
  | x :: rest => body x ;; for_of rest body
  end.

(** The world a computation leaves. *)
Definition exec {A} (m : Js A) (w : World) : World := snd (m w).

(** A TypeError of V8 for a member read on [undefined]. *)
Definition TypeError (member : string) : Error :=
  mkError ("Cannot read properties of undefined (reading '" ++ member ++ "')").

(** ** The browser API, as far as the script calls it *)

Definition contextMenus_removeAll : Js unit :=
  modify (with_browser (set_contextMenus [])).

Definition contextMenus_create (createProperties : CreateProperties) : Js unit :=
  modify (with_browser
            (fun b => set_contextMenus (contextMenus b ++ [createProperties]) b)).

(** [setTimeout] arms a timeout and returns its id, a number.  The timeout
    comes due [wait ms] after the call. *)
Definition setTimeout (cb : Callback) (ms : Number) : Js Z :=
  fun w =>
    let b := browser w in
    let t := mkTimeout (nextTimeout b) cb ms (clock b + wait ms) in
    (Returned (nextTimeout b),
     with_browser (fun b => set_nextTimeout (nextTimeout b + 1)
                              (set_timeouts (timeouts b ++ [t]) b)) w).

Definition clearTimeout (i : Z) : Js unit :=
  modify (with_browser
            (fun b => set_timeouts
                        (filter (fun t => negb (timeout_id t =? i)) (timeouts b)) b)).

Definition runtime_connectNative (application : string) : Js Port :=
  fun w =>
    (Returned (mkPort application (nextPort (browser w))),
     with_browser (fun b => set_nextPort (S (nextPort b)) b) w).

(** [Port.postMessage]: the call is recorded; the transport may throw. *)
Definition Port_postMessage (p : Port) (m : Message) : Js unit :=
  modify (with_browser (fun b => set_posted (posted b ++ [(p, m)]) b)) ;;
  w <- get ;;
  match portFault (browser w) with
  | Some e => throw e
  | None => ret tt
  end.

(** [browser.runtime.sendMessage]: the call is recorded; it rejects when no
    page is listening. *)
Definition runtime_sendMessage (m : Message) : Js unit :=
  modify (with_browser (fun b => set_sentMessages (sentMessages b ++ [m]) b)) ;;
  w <- get ;;
  match sendFault (browser w) with
  | Some e => throw e
  | None => ret tt
  end.

Definition console_warn (s : string) : Js unit :=
  modify (with_browser (fun b => set_console (console b ++ [Warn s]) b)).

Definition console_error (s : string) : Js unit :=
  modify (with_browser (fun b => set_console (console b ++ [Err s]) b)).

Definition action_enable (tabId : option Z) : Js unit :=
  modify (with_browser (fun b => set_actionCalls (actionCalls b ++ [Enable tabId]) b)).

Definition action_disable (tabId : option Z) : Js unit :=
  modify (with_browser (fun b => set_actionCalls (actionCalls b ++ [Disable tabId]) b)).

Definition action_setBadgeText (text : string) : Js unit :=
  modify (with_browser (set_badgeText text)).

Definition action_setBadgeBackgroundColor (color : list Z) : Js unit :=
  modify (with_browser (set_badgeColor color)).

(** ** background.js *)

(** [/^chrome:|^about:/.test(url)]; [undefined] is tested as the string
    ["undefined"], which does not match. *)
Definition _ABOUT_test (url : option string) : bool :=
  match url with
  | Some u => prefix "chrome:" u || prefix "about:" u
  | None => false
  end.

Definition _CONTEXTS : list string :=
  ["audio"; "page"; "frame"; "link"; "image"; "video"].

Definition _MUTE : list string :=
  ["Could not establish connection. Receiving end does not exist.";
   "The message port closed before a response was received."].

(** The script's globals when the service worker starts. *)
Definition initial (b : Browser) : World :=
  mkWorld (mkState (DBool false) (DDevices []) None) 100 None None b.

Definition logError (error : Error) : Js unit :=
  if negb (existsb (String.eqb (message error)) _MUTE)
  then console_error (message error)
  else ret tt.

(** [tab.url], a TypeError when [tab] is [null] or [undefined]. *)
Definition url_of (tab : option Tab) : Js (option string) :=
  match tab with
  | Some t => ret (tab_url t)
  | None => throw (TypeError "url")
  end.

Definition toggleAction (tab : option Tab) : Js unit :=
  try_catch
    (url <- url_of tab ;;
     if _ABOUT_test url
     then action_disable (option_map tab_id tab)
     else action_enable (option_map tab_id tab))
    (fun _ => action_disable None).

(** Send message to native-messaging-host. *)
Definition postMessage (message : option Message) : Js unit :=
  try_catch
    (w <- get ;;
     match port (State w), message with
     | Some p, Some m =>
         if truthy_str (type m)
         then Port_postMessage p m
         else console_warn "Missing message parameters"
     | _, _ => console_warn "Missing message parameters"
     end)
    logError.

(** [sender.url && sender.url.includes('/popup.html')]. *)
Definition from_popup (sender : MessageSender) : bool :=
  match sender_url sender with
  | Some u => truthy_str (Some u) && includes "/popup.html" u
  | None => false
  end.

(** Forward message from popup to NMH. *)
Definition onPopupMessage (message : option Message) (sender : MessageSender)
  : Js unit :=
  try_catch
    (if from_popup sender then postMessage message else ret tt)
    logError.

(** Forward message from NMH to popup. *)
Definition forwardPortMessage (message : Message) : Js unit :=
  try_catch (runtime_sendMessage message) logError.

(** Context menu item callback.  [const [id, action] = ...split(':')] takes
    the first two pieces; a missing piece is [undefined]. *)
Definition onContextItem (info : OnClickData) : Js unit :=
  try_catch
    (let pieces := split ":" (menuItemId info) in
     let id := nth_error pieces 0 in
     let action := nth_error pieces 1 in
     postMessage
       (Some (mkMessage (Some "share")
                (DShare id
                   (js_or (js_or (js_or (linkUrl info) (srcUrl info))
                                 (frameUrl info))
                          (pageUrl info))
                   action))))
    logError.

(** [State.devices.length]: a TypeError on [undefined], [undefined] on a
    value that is no array. *)
Definition length_of (d : Data) : Js (option Z) :=
  match d with
  | DUndefined => throw (TypeError "length")
  | DDevices l => ret (Some (Z.of_nat (List.length l)))
  | DBool _ | DShare _ _ _ => ret None
  end.

(** [n === 0] and [n > 1], both false on [undefined]. *)
Definition is_zero (n : option Z) : bool :=
  match n with
  | Some k => k =? 0
  | None => false
  end.

Definition more_than_one (n : option Z) : bool :=
  match n with
  | Some k => 1 <? k
  | None => false
  end.

(** The devices [for (const device of State.devices)] visits. *)
Definition elements (d : Data) : list Device :=
  match d with
  | DDevices l => l
  | _ => []
  end.

(** [State.devices[0]], [undefined] when there is none. *)
Definition first_of (d : Data) : option Device :=
  match d with
  | DDevices l => hd_error l
  | _ => None
  end.

(** Populate context menu. *)
Definition createContextMenu (tab : option Tab) : Js unit :=
  try_catch
    (contextMenus_removeAll ;;
     url <- url_of tab ;;
     w <- get ;;
     if _ABOUT_test url then ret tt else
     n <- length_of (devices (State w)) ;;
     if is_zero n then ret tt else
     if more_than_one n then
       contextMenus_create
         (mkItem "contextMenuMultipleDevices"
                 (Plain (Localized "contextMenuMultipleDevices"))
                 None (Some _CONTEXTS)) ;;
       for_of (elements (devices (State w)))
         (fun device =>
            if share device && telephony device then
              contextMenus_create
                (mkItem (id device) (Plain (Literal (name device)))
                        (Some "contextMenuMultipleDevices") None) ;;
              contextMenus_create
                (mkItem (id device ++ ":share") (Plain (Localized "shareMessage"))
                        (Some (id device)) (Some _CONTEXTS)) ;;
              contextMenus_create
                (mkItem (id device ++ ":telephony") (Plain (Localized "smsMessage"))
                        (Some (id device)) (Some _CONTEXTS))
            else
              let (pluginAction, pluginName) :=
                if share device
                then ("share", Localized "shareMessage")
                else ("telephony", Localized "smsMessage") in
              contextMenus_create
                (mkItem (id device ++ ":" ++ pluginAction)
                        (LocalizedWith "contextMenuSinglePlugin"
                           [Literal (name device); pluginName])
                        (Some "contextMenuMultipleDevices") (Some _CONTEXTS)))
     else
       match first_of (devices (State w)) with
       | None => throw (TypeError "share")
       | Some device =>
           if share device && telephony device then
             contextMenus_create
               (mkItem (id device) (Plain (Literal (name device)))
                       None (Some _CONTEXTS)) ;;
             contextMenus_create
               (mkItem (id device ++ ":share") (Plain (Localized "shareMessage"))
                       (Some (id device)) (Some _CONTEXTS)) ;;
             contextMenus_create
               (mkItem (id device ++ ":telephony") (Plain (Localized "smsMessage"))
                       (Some (id device)) (Some _CONTEXTS))
           else
             let (pluginAction, pluginName) :=
               if share device
               then ("share", Localized "shareMessage")
               else ("telephony", Localized "smsMessage") in
             contextMenus_create
               (mkItem (id device ++ ":" ++ pluginAction)
                       (LocalizedWith "contextMenuSinglePlugin"
                          [Literal (name device); pluginName])
                       None (Some _CONTEXTS))
       end)
    logError.

Definition type_is (m : Message) (t : string) : bool :=
  match type m with
  | Some s => String.eqb s t
  | None => false
  end.

(** Message handling from NMH.  [tabs] is what
    [browser.tabs.query({active: true, currentWindow: true})] answers. *)
Definition onPortMessage (message : Message) (tabs : list Tab) : Js unit :=
  try_catch
    ((if type_is message "connected" then
        modify (with_State (set_connected (data message))) ;;
        w <- get ;;
        if truthy (connected (State w))
        then postMessage (Some (mkMessage (Some "devices") DUndefined))
        else modify (with_State (set_devices (DDevices [])))
      else if type_is message "devices" then
        modify (with_State (set_connected (DBool true))) ;;
        modify (with_State (set_devices (data message)))
      else ret tt) ;;
     forwardPortMessage message ;;
     createContextMenu (hd_error tabs))
    logError.

(** The badge glyph U+26D4, in UTF-8. *)
Definition NO_ENTRY : string :=
  String (ascii_of_nat 226) (String (ascii_of_nat 155)
    (String (ascii_of_nat 148) EmptyString)).

(** Disconnection callback. *)
Definition onDisconnect : Js unit :=
  try_catch
    (modify (with_State (set_connected (DBool false))) ;;
     modify (with_State (set_port None)) ;;
     action_setBadgeText NO_ENTRY ;;
     action_setBadgeBackgroundColor [198; 40; 40; 255] ;;
     forwardPortMessage (mkMessage (Some "connected") (DBool false)) ;;
     contextMenus_removeAll ;;
     w <- get ;;
     match reconnectResetTimer w with
     | Some i => clearTimeout i ;; modify (set_reconnectResetTimer None)
     | None => ret tt
     end ;;
     w <- get ;;
     match reconnectTimer w with
     | Some i => clearTimeout i ;; modify (set_reconnectTimer None)
     | None => ret tt
     end ;;
     w <- get ;;
     match lastError (browser w) with
     | Some e => console_warn ("Disconnected: " ++ message e)
     | None => ret tt
     end ;;
     w <- get ;;
     i <- setTimeout cb_connect (reconnectDelay w) ;;
     modify (set_reconnectTimer (Some i)) ;;
     w <- get ;;
     modify (set_reconnectDelay (times_two (reconnectDelay w))))
    logError.

(** Connect to native-messaging-host. *)
Definition connect : Js unit :=
  try_catch
    (p <- runtime_connectNative "org.gnome.shell.extensions.gsconnect" ;;
     modify (with_State (set_port (Some p))) ;;
     action_setBadgeText "" ;;
     action_setBadgeBackgroundColor [0; 0; 0; 0] ;;
     w <- get ;;
     i <- setTimeout cb_resetDelay (nine_tenths (reconnectDelay w)) ;;
     modify (set_reconnectResetTimer (Some i)) ;;
     Port_postMessage p (mkMessage (Some "devices") DUndefined))
    logError.

(** ** Events

    What the browser delivers to the service worker: the listeners the script
    registers, the timeouts it arms, and the passing of time. *)

Inductive Event :=
| Startup                                   (* runtime.onStartup *)
| Installed                                 (* runtime.onInstalled *)
| TabActivated (tab : Tab)                  (* tabs.onActivated, tabs.get resolved *)
| TabUpdated (changeInfo_url : option string) (tab : Tab)
| PopupMessage (message : option Message) (sender : MessageSender)
| ContextClicked (info : OnClickData)
| PortMessage (message : Message) (tabs : list Tab)
| PortDisconnected
| TimeoutFired (i : Z)
| Elapsed (ms : Z).

(** The armed timeout [i], if it is due: the first such is taken off the list. *)
Fixpoint take_timeout (i now : Z) (l : list Timeout)
  : option (Timeout * list Timeout) :=
  match l with
  | [] => None
  | t :: rest =>
      if (timeout_id t =? i) && (due t <=? now) then Some (t, rest)
      else match take_timeout i now rest with
           | Some (t', rest') => Some (t', t :: rest')
           | None => None
           end
  end.

Definition call (cb : Callback) : Js unit :=
  match cb with
  | cb_connect => connect
  | cb_resetDelay => modify (set_reconnectDelay 100)
  end.

Definition fire (i : Z) : Js unit :=
  w <- get ;;
  match take_timeout i (clock (browser w)) (timeouts (browser w)) with
  | Some (t, rest) =>
      modify (with_browser (set_timeouts rest)) ;;
      call (callback t)
  | None => ret tt
  end.

Definition dispatch (e : Event) : Js unit :=
  match e with
  | Startup => toggleAction None ;; connect
  | Installed => toggleAction None ;; connect
  | TabActivated tab => toggleAction (Some tab) ;; createContextMenu (Some tab)
  | TabUpdated changeInfo_url tab =>
      if truthy_str changeInfo_url
      then toggleAction (Some tab) ;; createContextMenu (Some tab)
      else ret tt
  | PopupMessage message sender => onPopupMessage message sender
  | ContextClicked info => onContextItem info
  | PortMessage message tabs => onPortMessage message tabs
  | PortDisconnected => onDisconnect
  | TimeoutFired i => fire i
  | Elapsed ms =>
      modify (with_browser (fun b => set_clock (clock b + Z.max 0 ms) b))
  end.

Definition step (e : Event) (w : World) : World := exec (dispatch e) w.

Fixpoint run (trace : list Event) (w : World) : World :=
  match trace with
  | [] => w
  | e :: rest => run rest (step e w)
  end.

(** Does [e] run the arrow function that resets the delay? *)
Definition fires_reset (e : Event) (w : World) : bool :=
  match e with
  | TimeoutFired i =>
      match take_timeout i (clock (browser w)) (timeouts (browser w)) with
      | Some (t, _) =>
          match callback t with
          | cb_resetDelay => true
          | cb_connect => false
          end
      | None => false
      end
  | _ => false
  end.

(** No event of the trace resets the delay. *)
Fixpoint no_reset (trace : list Event) (w : World) : bool :=
  match trace with
  | [] => true
  | e :: rest => negb (fires_reset e w) && no_reset rest (step e w)
  end.

Definition is_disconnect (e : Event) : bool :=
  match e with
  | PortDisconnected => true
  | _ => false
  end.

Definition disconnects (trace : list Event) : nat :=
  List.length (filter is_disconnect trace).

(** Every armed timeout is still in the future: the due ones have fired. *)
Definition none_overdue (w : World) : bool :=
  forallb (fun t => clock (browser w) <? due t) (timeouts (browser w)).

Arguments exec : simpl never.
Arguments times_two : simpl never.
Arguments nine_tenths : simpl never.
Arguments wait : simpl never.
Arguments step : simpl never.
Arguments dispatch : simpl never.

(** ** Notions the statements use *)

(** What one device adds to the menu when the roster has several devices:
    its items hang beneath the grouping item. *)
Definition items_under_root (device : Device) : list CreateProperties :=
  if share device && telephony device then
    [mkItem (id device) (Plain (Literal (name device)))
            (Some "contextMenuMultipleDevices") None;
     mkItem (id device ++ ":share") (Plain (Localized "shareMessage"))
            (Some (id device)) (Some _CONTEXTS);
     mkItem (id device ++ ":telephony") (Plain (Localized "smsMessage"))
            (Some (id device)) (Some _CONTEXTS)]
  else if share device then
    [mkItem (id device ++ ":share")
            (LocalizedWith "contextMenuSinglePlugin"
               [Literal (name device); Localized "shareMessage"])
            (Some "contextMenuMultipleDevices") (Some _CONTEXTS)]
  else
    [mkItem (id device ++ ":telephony")
            (LocalizedWith "contextMenuSinglePlugin"
               [Literal (name device); Localized "smsMessage"])
            (Some "contextMenuMultipleDevices") (Some _CONTEXTS)].

(** What the only device of a roster adds to the menu. *)
Definition items_top_level (device : Device) : list CreateProperties :=
  if share device && telephony device then
    [mkItem (id device) (Plain (Literal (name device))) None (Some _CONTEXTS);
     mkItem (id device ++ ":share") (Plain (Localized "shareMessage"))
            (Some (id device)) (Some _CONTEXTS);
     mkItem (id device ++ ":telephony") (Plain (Localized "smsMessage"))
            (Some (id device)) (Some _CONTEXTS)]
  else if share device then
    [mkItem (id device ++ ":share")
            (LocalizedWith "contextMenuSinglePlugin"
               [Literal (name device); Localized "shareMessage"])
            None (Some _CONTEXTS)]
  else
    [mkItem (id device ++ ":telephony")
            (LocalizedWith "contextMenuSinglePlugin"
               [Literal (name device); Localized "smsMessage"])
            None (Some _CONTEXTS)].

Definition root_item : CreateProperties :=
  mkItem "contextMenuMultipleDevices"
         (Plain (Localized "contextMenuMultipleDevices")) None (Some _CONTEXTS).

(** The menu a roster and a tab determine. *)
Definition menu_for (tab : option Tab) (roster : Data) : list CreateProperties :=
  match tab with
  | None => []
  | Some t =>
      if _ABOUT_test (tab_url t) then []
      else match roster with
           | DDevices [] => []
           | DDevices [device] => items_top_level device
           | DDevices l => root_item :: flat_map items_under_root l
           | _ => []
           end
  end.

(** Does the character occur in the string? *)
Fixpoint occurs (c : ascii) (s : string) : bool :=
  match s with
  | EmptyString => false
  | String a rest => Ascii.eqb a c || occurs c rest
  end.

(** The outbound message types the specification lists as recognized,
    [share] and [devices].  The script keeps no such list: [postMessage]
    tests [message.type] for truthiness. *)
Definition recognized_type (t : option string) : bool :=
  match t with
  | Some s => String.eqb s "share" || String.eqb s "devices"
  | None => false
  end.

(** [m] relates every world to the world it leaves. *)
Definition keeps (R : World -> World -> Prop) {A} (m : Js A) : Prop :=
  forall w, R w (snd (m w)).

(** Armed timeouts stay armed and the delay is untouched. *)
Definition stable (w w' : World) : Prop :=
  incl (timeouts (browser w)) (timeouts (browser w'))
  /\ reconnectDelay w' = reconnectDelay w.

(** The clock does not move. *)
Definition same_clock (w w' : World) : Prop :=
  clock (browser w') = clock (browser w).

(** The timeouts left armed by [clearTimeout] on a timer variable. *)
Definition without (timer : option Z) (l : list Timeout) : list Timeout :=
  match timer with
  | Some i => filter (fun t => negb (timeout_id t =? i)) l
  | None => l
  end.

(** The timeout [onDisconnect] arms in world [w]. *)
Definition reconnect_timeout (w : World) : Timeout :=
  mkTimeout (nextTimeout (browser w)) cb_connect (reconnectDelay w)
            (clock (browser w) + wait (reconnectDelay w)).

(** The timeout [connect] arms in world [w]. *)
Definition reset_timeout (w : World) : Timeout :=
  mkTimeout (nextTimeout (browser w)) cb_resetDelay
            (nine_tenths (reconnectDelay w))
            (clock (browser w) + wait (nine_tenths (reconnectDelay w))).

(** Only what the user sees changed: the script's globals, the timeouts,
    the clock and the port traffic are as before. *)
Definition ui_only (w w' : World) : Prop :=
  State w' = State w
  /\ reconnectDelay w' = reconnectDelay w
  /\ reconnectTimer w' = reconnectTimer w
  /\ reconnectResetTimer w' = reconnectResetTimer w
  /\ timeouts (browser w') = timeouts (browser w)
  /\ posted (browser w') = posted (browser w).

(** [x] doubled [n] times, as [n] runs of [reconnectDelay *= 2] leave it. *)
Definition doubled (n : nat) (x : Number) : Number :=
  Nat.iter n times_two x.

(** An outage of [n] rounds: the port drops, the delay of the moment passes,
    the reconnect timeout fires and [connect] runs.  [i] is the id of the
    first reconnect timeout, [d] the delay at the first drop. *)
Fixpoint outage (i : Z) (d : Number) (n : nat) : list Event :=
  match n with
  | O => []
  | S n' =>
      PortDisconnected :: Elapsed (wait d) :: TimeoutFired i
        :: outage (i + 2) (times_two d) n'
  end.

(** The trusted popup surface in the specification's words: a sender whose
    origin is the extension's own, [chrome-extension://<id>].  The script
    has no such test: [onPopupMessage] looks for ['/popup.html'] anywhere in
    the sender's url. *)
Definition origin_is_extension (extension_id : string) (sender : MessageSender)
  : bool :=
  match sender_url sender with
  | Some u => prefix ("chrome-extension://" ++ extension_id ++ "/") u
  | None => false
  end.

(** Sample values. *)
Definition phone : Device := mkDevice "a1b2" "Phone" true true.
Definition tablet : Device := mkDevice "c3d4" "Tablet" true true.
Definition watch : Device := mkDevice "e5f6" "Watch" false false.
Definition page : Tab := mkTab 7 (Some "https://example.org/").
Definition gsconnect : Port := mkPort "org.gnome.shell.extensions.gsconnect" 0.
Definition idle_browser : Browser :=
  mkBrowser [] [] 1 0 0 [] [] [] "" [] [] None None None.
Definition with_roster (l : list Device) : World :=
  mkWorld (mkState (DBool true) (DDevices l) (Some gsconnect)) 100 None None
          idle_browser.

(** ** Further notions *)

(** Every item that names a parent comes after an item with that id. *)
Fixpoint parents_first_from (seen : list string) (l : list CreateProperties)
  : bool :=
  match l with
  | [] => true
  | item :: rest =>
      match parentId item with
      | Some parent => existsb (String.eqb parent) seen
      | None => true
      end
      && parents_first_from (menu_id item :: seen) rest
  end.

Definition parents_first (l : list CreateProperties) : bool :=
  parents_first_from [] l.

(** The [OnClickData] of a click on [item] with the given urls. *)
Definition click_on (item : CreateProperties)
           (link src frame page_url : option string) : OnClickData :=
  mkInfo (menu_id item) link src frame page_url.

Definition is_reconnect (t : Timeout) : bool :=
  match callback t with
  | cb_connect => true
  | cb_resetDelay => false
  end.

(** The armed timeouts that will run [connect]. *)
Definition reconnects (w : World) : list Timeout :=
  filter is_reconnect (timeouts (browser w)).

(** The timeouts and what the script knows of them. *)
Definition timer_state (w : World)
  : list Timeout * Z * option Z * option Z :=
  (timeouts (browser w), nextTimeout (browser w),
   reconnectTimer w, reconnectResetTimer w).

(** The bookkeeping of timeouts: the ids of the armed timeouts are distinct
    and, like the ids the two timer variables hold, below the next id; and
    an armed reconnect timeout is the one [reconnectTimer] names. *)
Definition timers_ok (w : World) : Prop :=
  (forall t, In t (timeouts (browser w)) -> timeout_id t < nextTimeout (browser w))
  /\ NoDup (map timeout_id (timeouts (browser w)))
  /\ (forall t, In t (timeouts (browser w)) -> callback t = cb_connect ->
                reconnectTimer w = Some (timeout_id t))
  /\ (forall i, reconnectTimer w = Some i -> i < nextTimeout (browser w))
  /\ (forall i, reconnectResetTimer w = Some i -> i < nextTimeout (browser w)).

(** An observation of the world is as before. *)
Definition same {T : Type} (f : World -> T) (w w' : World) : Prop :=
  f w' = f w.

(** The world after the roster part of [onPortMessage]: the branch on
    [message.type], before the message is forwarded and the menu rebuilt. *)
Definition roster_after (message : Message) (w : World) : World :=
  if type_is message "connected" then
    if truthy (data message)
    then exec (postMessage (Some (mkMessage (Some "devices") DUndefined)))
              (with_State (set_connected (data message)) w)
    else with_State (set_devices (DDevices []))
                    (with_State (set_connected (data message)) w)
  else if type_is message "devices" then
    with_State (set_devices (data message))
               (with_State (set_connected (DBool true)) w)
  else w.

(** The port [connect] opens in world [w]. *)
Definition new_port (w : World) : Port :=
  mkPort "org.gnome.shell.extensions.gsconnect" (nextPort (browser w)).

(** A sample world whose port throws and whose popup is closed. *)
Definition faulty : World :=
  mkWorld (mkState (DBool true) (DDevices [phone]) (Some gsconnect)) 100 None None
          (mkBrowser [] [] 1 0 0 [] [] [] "" [] [] None
             (Some (mkError "boom"))
             (Some (mkError
                "Could not establish connection. Receiving end does not exist."))).

(** * Properties *)

(** ** Relations every step of a computation keeps *)

Section Keeps.
Variable R : World -> World -> Prop.
Hypothesis R_refl : forall w, R w w.
Hypothesis R_trans : forall a b c, R a b -> R b c -> R a c.

Lemma keeps_ret A (a : A) : keeps R (ret a).
Proof. intro w. apply R_refl. Qed.

Lemma keeps_throw A (e : Error) : keeps R (@throw A e).
Proof. intro w. apply R_refl. Qed.

Lemma keeps_get : keeps R get.
Proof. intro w. apply R_refl. Qed.

Lemma keeps_modify (f : World -> World) :
  (forall w, R w (f w)) -> keeps R (modify f).
Proof. intros Hf w. apply Hf. Qed.

Lemma keeps_bind A B (m : Js A) (k : A -> Js B) :
  keeps R m -> (forall a, keeps R (k a)) -> keeps R (bind m k).
Proof.
  intros Hm Hk w. unfold bind. specialize (Hm w).
  destruct (m w) as [[a | e] w']; simpl in *.
  - eapply R_trans; [exact Hm | apply Hk].
  - exact Hm.
Qed.

Lemma keeps_try_catch (body : Js unit) (handler : Error -> Js unit) :
  keeps R body -> (forall e, keeps R (handler e)) ->
  keeps R (try_catch body handler).
Proof.
  intros Hb Hh w. unfold try_catch. specialize (Hb w).
  destruct (body w) as [[a | e] w']; simpl in *.
  - exact Hb.
  - eapply R_trans; [exact Hb | apply Hh].
Qed.

Lemma keeps_for_of A (l : list A) (body : A -> Js unit) :
  (forall x, keeps R (body x)) -> keeps R (for_of l body).
Proof.
  intro Hb. induction l as [| x rest IH]; simpl.
  - apply keeps_ret.
  - apply keeps_bind; [apply Hb | intros _; exact IH].
Qed.
End Keeps.

(** Sequencing after a computation that returns. *)
Lemma bind_returns B (m : Js unit) (k : unit -> Js B) (w : World) :
  fst (m w) = Returned tt -> bind m k w = k tt (exec m w).
Proof.
  unfold bind, exec. destruct (m w) as [[[] | e] w']; simpl; intro H.
  - reflexivity.
  - discriminate H.
Qed.

Lemma try_returns (body : Js unit) (handler : Error -> Js unit) (w : World) :
  fst (body w) = Returned tt -> try_catch body handler w = body w.
Proof.
  unfold try_catch. destruct (body w) as [[[] | e] w']; simpl; intro H.
  - reflexivity.
  - discriminate H.
Qed.

Create HintDb js.
#[local] Hint Unfold
  contextMenus_removeAll contextMenus_create clearTimeout Port_postMessage
  runtime_sendMessage console_warn console_error action_enable action_disable
  action_setBadgeText action_setBadgeBackgroundColor logError url_of
  toggleAction postMessage onPopupMessage forwardPortMessage onContextItem
  length_of createContextMenu onPortMessage onDisconnect connect : js.

(** Split a computation along its syntax; [refl] and [trans] are the two
    properties of the relation, [leaf] closes a [modify]. *)
Ltac keeps_syntax refl trans leaf :=
  repeat first
    [ apply keeps_ret; exact refl
    | apply keeps_throw; exact refl
    | apply keeps_get; exact refl
    | apply keeps_bind; [exact trans | | intro]
    | apply keeps_try_catch; [exact trans | | intro]
    | apply keeps_for_of; [exact refl | exact trans | intro]
    | apply keeps_modify; intro; solve [leaf]
    | match goal with
      | |- keeps _ (if ?b then _ else _) => destruct b
      | |- keeps _ (match ?x with _ => _ end) => destruct x
      end ].

Lemma stable_refl (w : World) : stable w w.
Proof. split; [apply incl_refl | reflexivity]. Qed.

Lemma stable_trans (a b c : World) : stable a b -> stable b c -> stable a c.
Proof.
  intros [Hi Hd] [Hi' Hd']. split.
  - eapply incl_tran; eassumption.
  - congruence.
Qed.

Lemma same_clock_refl (w : World) : same_clock w w.
Proof. reflexivity. Qed.

Lemma same_clock_trans (a b c : World) :
  same_clock a b -> same_clock b c -> same_clock a c.
Proof. unfold same_clock. congruence. Qed.

Ltac stable_leaf := split; simpl; [apply incl_refl | reflexivity].

Lemma setTimeout_stable (cb : Callback) (ms : Number) : keeps stable (setTimeout cb ms).
Proof. intro w. split; simpl; [apply incl_appl, incl_refl | reflexivity]. Qed.

Lemma connectNative_stable (a : string) : keeps stable (runtime_connectNative a).
Proof. intro w. stable_leaf. Qed.

Ltac stable_tac :=
  autounfold with js;
  repeat first
    [ apply setTimeout_stable
    | apply connectNative_stable
    | progress keeps_syntax stable_refl stable_trans stable_leaf ].

Lemma postMessage_stable (m : option Message) : keeps stable (postMessage m).
Proof. stable_tac. Qed.

Lemma createContextMenu_stable (tab : option Tab) : keeps stable (createContextMenu tab).
Proof. stable_tac. Qed.

Lemma connect_stable : keeps stable connect.
Proof. stable_tac. Qed.

(** ** What the connection handlers leave *)

Ltac run_js :=
  unfold exec; autounfold with js;
  cbv [bind try_catch modify get ret throw setTimeout runtime_connectNative];
  cbn.

(** Case analysis on the innermost scrutinee left in the goal. *)
Ltac break_match :=
  match goal with
  | |- context [match ?x with _ => _ end] =>
      lazymatch x with
      | context [match _ with _ => _ end] => fail
      | _ => destruct x eqn:?
      end
  end.

Lemma onDisconnect_world (w : World) :
  let w' := exec onDisconnect w in
  State w' = mkState (DBool false) (devices (State w)) None
  /\ reconnectDelay w' = times_two (reconnectDelay w)
  /\ reconnectResetTimer w' = None
  /\ reconnectTimer w' = Some (nextTimeout (browser w))
  /\ timeouts (browser w') =
       (without (reconnectTimer w)
          (without (reconnectResetTimer w) (timeouts (browser w)))
        ++ [reconnect_timeout w])%list
  /\ contextMenus (browser w') = []
  /\ clock (browser w') = clock (browser w).
Proof.
  run_js. repeat (break_match; cbn); repeat split; congruence.
Qed.

Lemma connect_world (w : World) :
  let w' := exec connect w in
  State w' = set_port (Some (mkPort "org.gnome.shell.extensions.gsconnect"
                                    (nextPort (browser w)))) (State w)
  /\ reconnectDelay w' = reconnectDelay w
  /\ reconnectTimer w' = reconnectTimer w
  /\ reconnectResetTimer w' = Some (nextTimeout (browser w))
  /\ timeouts (browser w') = (timeouts (browser w) ++ [reset_timeout w])%list
  /\ clock (browser w') = clock (browser w).
Proof.
  run_js. repeat (break_match; cbn); repeat split; congruence.
Qed.

Ltac clock_leaf := unfold same_clock; reflexivity.

Lemma setTimeout_clock (cb : Callback) (ms : Number) : keeps same_clock (setTimeout cb ms).
Proof. intro w. reflexivity. Qed.

Lemma connectNative_clock (a : string) : keeps same_clock (runtime_connectNative a).
Proof. intro w. reflexivity. Qed.

Ltac clock_tac :=
  autounfold with js;
  repeat first
    [ apply setTimeout_clock
    | apply connectNative_clock
    | progress keeps_syntax same_clock_refl same_clock_trans clock_leaf ].

(** ** One event at a time *)

(** Every listener but [onDisconnect], and the passing of time, leaves the
    armed timeouts armed and the delay as it is. *)
Lemma dispatch_stable (e : Event) :
  match e with
  | PortDisconnected | TimeoutFired _ => True
  | _ => keeps stable (dispatch e)
  end.
Proof.
  destruct e; cbv beta iota; try exact I; unfold dispatch; stable_tac.
Qed.

(** Only [Elapsed] moves the clock, and forward. *)
Lemma step_clock (e : Event) (w : World) :
  clock (browser w) <= clock (browser (step e w)).
Proof.
  assert (Hk : match e with
               | Elapsed _ => True
               | _ => keeps same_clock (dispatch e)
               end).
  { destruct e; cbv beta iota; try exact I; unfold dispatch, fire, call;
      clock_tac. }
  destruct e; try (unfold step, exec; rewrite (Hk w); lia).
  unfold step, exec, dispatch, modify; cbn [snd browser with_browser clock set_clock].
  lia.
Qed.

Lemma run_clock (trace : list Event) (w : World) :
  clock (browser w) <= clock (browser (run trace w)).
Proof.
  revert w. induction trace as [| e rest IH]; intro w; simpl.
  - lia.
  - specialize (IH (step e w)). pose proof (step_clock e w). lia.
Qed.

Lemma take_timeout_In (i now : Z) (l rest : list Timeout) (t : Timeout) :
  take_timeout i now l = Some (t, rest) ->
  forall x, In x l -> x = t \/ In x rest.
Proof.
  revert rest. induction l as [| a l IH]; intros rest H x Hx; simpl in *.
  - contradiction.
  - destruct ((timeout_id a =? i) && (due a <=? now)).
    + inversion H; subst. destruct Hx; [left; congruence | right; assumption].
    + destruct (take_timeout i now l) as [[t' rest'] |]; [| discriminate].
      inversion H; subst. destruct Hx as [Hx | Hx].
      * right. left. assumption.
      * destruct (IH rest' eq_refl x Hx); [left | right; right]; assumption.
Qed.

(** The world after timeout [i] fired, when it was armed and due. *)
Lemma fire_taken (i : Z) (w : World) (t : Timeout) (rest : list Timeout) :
  take_timeout i (clock (browser w)) (timeouts (browser w)) = Some (t, rest) ->
  exec (fire i) w =
  exec (call (callback t)) (with_browser (set_timeouts rest) w).
Proof.
  intro H. unfold exec, fire, bind, get, modify. rewrite H. reflexivity.
Qed.

Lemma fire_not_taken (i : Z) (w : World) :
  take_timeout i (clock (browser w)) (timeouts (browser w)) = None ->
  exec (fire i) w = w.
Proof.
  intro H. unfold exec, fire, bind, get. rewrite H. reflexivity.
Qed.

(** The delay changes by doubling at a disconnect and not otherwise, as long
    as no reset fires. *)
Lemma step_delay (e : Event) (w : World) :
  fires_reset e w = false ->
  reconnectDelay (step e w) =
  if is_disconnect e then times_two (reconnectDelay w) else reconnectDelay w.
Proof.
  intro Hr. pose proof (dispatch_stable e) as Hs.
  unfold step, exec.
  destruct e; cbv beta iota in Hs; cbn [is_disconnect];
    try (exact (proj2 (Hs w))).
  - exact (proj1 (proj2 (onDisconnect_world w))).
  - fold (exec (dispatch (TimeoutFired i)) w). unfold dispatch.
    cbn [fires_reset] in Hr.
    destruct (take_timeout i (clock (browser w)) (timeouts (browser w)))
      as [[t rest] |] eqn:Ht.
    + rewrite (fire_taken _ _ _ _ Ht).
      destruct (callback t); [| discriminate]. cbn [call].
      exact (proj2 (connect_stable (with_browser (set_timeouts rest) w))).
    + rewrite (fire_not_taken _ _ Ht). reflexivity.
Qed.

Lemma disconnects_cons (e : Event) (rest : list Event) :
  disconnects (e :: rest) =
  if is_disconnect e then S (disconnects rest) else disconnects rest.
Proof. unfold disconnects. simpl. destruct (is_disconnect e); reflexivity. Qed.

Lemma run_delay (trace : list Event) (w : World) :
  no_reset trace w = true ->
  reconnectDelay (run trace w) = doubled (disconnects trace) (reconnectDelay w).
Proof.
  revert w. induction trace as [| e rest IH]; intros w H.
  - reflexivity.
  - cbn [no_reset run] in *.
    apply andb_true_iff in H as [He Hrest]. apply negb_true_iff in He.
    rewrite (IH _ Hrest), (step_delay _ _ He), disconnects_cons.
    destruct (is_disconnect e); [| reflexivity].
    unfold doubled. symmetry. apply Nat.iter_succ_r.
Qed.

Lemma base_in_range : 100 * 2 ^ 1017 <= MAX_VALUE /\ MAX_VALUE < 100 * 2 ^ 1018.
Proof. split; [apply Z.leb_le | apply Z.ltb_lt]; vm_compute; reflexivity. Qed.

(** The base delay doubled [n] times: exact for the first 1017 doublings,
    [Infinity] from the 1018th. *)
Lemma doubled_base (n : nat) :
  doubled n 100 =
  if (n <=? 1017)%nat then Finite (100 * 2 ^ Z.of_nat n) else Infinity.
Proof.
  destruct base_in_range as [Hin Hout].
  induction n as [| n IH]; [reflexivity |].
  unfold doubled in *. rewrite Nat.iter_succ, IH. clear IH.
  assert (Hpow : 100 * 2 ^ Z.of_nat (S n) = 100 * 2 ^ Z.of_nat n * 2).
  { rewrite Nat2Z.inj_succ, Z.pow_succ_r by lia. lia. }
  destruct (n <=? 1017)%nat eqn:Hn.
  - apply Nat.leb_le in Hn. unfold times_two, number. rewrite <- Hpow.
    assert (Hpos : 0 < 2 ^ Z.of_nat (S n)) by (apply Z.pow_pos_nonneg; lia).
    assert (Hmax : 0 < MAX_VALUE).
    { apply Z.lt_le_trans with (100 * 2 ^ 1017); [| exact Hin].
      assert (0 < 2 ^ 1017) by (apply Z.pow_pos_nonneg; lia). lia. }
    destruct (S n <=? 1017)%nat eqn:Hs.
    + apply Nat.leb_le in Hs.
      assert (Hle : 2 ^ Z.of_nat (S n) <= 2 ^ 1017)
        by (apply Z.pow_le_mono_r; lia).
      assert (H1 : (MAX_VALUE <? 100 * 2 ^ Z.of_nat (S n)) = false)
        by (apply Z.ltb_ge; remember (2 ^ 1017) as B; lia).
      assert (H2 : (100 * 2 ^ Z.of_nat (S n) <? - MAX_VALUE) = false)
        by (apply Z.ltb_ge; lia).
      rewrite H1, H2. reflexivity.
    + apply Nat.leb_gt in Hs. assert (E : n = 1017%nat) by lia. subst n.
      assert (H1 : (MAX_VALUE <? 100 * 2 ^ Z.of_nat 1018) = true)
        by (apply Z.ltb_lt; exact Hout).
      rewrite H1. reflexivity.
  - apply Nat.leb_gt in Hn.
    destruct (S n <=? 1017)%nat eqn:Hs; [apply Nat.leb_le in Hs; lia |].
    reflexivity.
Qed.

(** Until a disconnect, a reset timeout stays armed or the delay is back at
    its base value. *)
Lemma step_armed_or_reset (t0 : Timeout) (e : Event) (w : World) :
  callback t0 = cb_resetDelay ->
  is_disconnect e = false ->
  In t0 (timeouts (browser w)) \/ reconnectDelay w = 100 ->
  In t0 (timeouts (browser (step e w))) \/ reconnectDelay (step e w) = 100.
Proof.
  intros Hcb He H. pose proof (dispatch_stable e) as Hs.
  unfold step, exec.
  destruct e; cbv beta iota in Hs; cbn [is_disconnect] in He;
    try discriminate;
    try (destruct (Hs w) as [Hincl Hdelay];
         destruct H as [H | H];
         [left; exact (Hincl _ H) | right; rewrite Hdelay; exact H]).
  fold (exec (dispatch (TimeoutFired i)) w). unfold dispatch.
  destruct (take_timeout i (clock (browser w)) (timeouts (browser w)))
    as [[t rest] |] eqn:Ht.
  - rewrite (fire_taken _ _ _ _ Ht).
    destruct (callback t) eqn:Hcbt; cbn [call].
    + destruct (connect_stable (with_browser (set_timeouts rest) w))
        as [Hincl Hdelay].
      destruct H as [H | H].
      * destruct (take_timeout_In _ _ _ _ _ Ht _ H) as [Heq | Hin].
        -- subst t0. rewrite Hcbt in Hcb. discriminate Hcb.
        -- left. apply Hincl. exact Hin.
      * right. unfold exec. rewrite Hdelay. exact H.
    + right. reflexivity.
  - rewrite (fire_not_taken _ _ Ht). exact H.
Qed.

Lemma run_armed_or_reset (t0 : Timeout) (trace : list Event) (w : World) :
  callback t0 = cb_resetDelay ->
  forallb (fun e => negb (is_disconnect e)) trace = true ->
  In t0 (timeouts (browser w)) \/ reconnectDelay w = 100 ->
  In t0 (timeouts (browser (run trace w))) \/ reconnectDelay (run trace w) = 100.
Proof.
  intro Hcb. revert w. induction trace as [| e rest IH]; intros w Ht H.
  - exact H.
  - cbn [forallb run] in *. apply andb_true_iff in Ht as [He Hrest].
    apply negb_true_iff in He.
    apply IH; [exact Hrest |]. apply step_armed_or_reset; assumption.
Qed.

(** ** The backoff *)

(** C3 fails as stated.  The service worker starts and the channel drops
    1018 times, each time reconnecting after the delay of the moment, with
    no stabilization reset: the delay is then [Infinity], not
    [100 * 2^1018], which no binary64 holds. *)
Lemma delay_is_infinite_after_1018_disconnects :
  reconnectDelay (initial idle_browser) = 100
  /\ no_reset (Startup :: outage 2 100 1018) (initial idle_browser) = true
  /\ disconnects (Startup :: outage 2 100 1018) = 1018%nat
  /\ nextPort (browser (run (Startup :: outage 2 100 1018) (initial idle_browser)))
     = 1019%nat
  /\ reconnectDelay (run (Startup :: outage 2 100 1018) (initial idle_browser))
     = Infinity
  /\ reconnectDelay (run (Startup :: outage 2 100 1018) (initial idle_browser))
     <> Finite (100 * 2 ^ 1018).
Proof.
  assert (E : reconnectDelay (run (Startup :: outage 2 100 1018)
                                  (initial idle_browser)) = Infinity)
    by (vm_compute; reflexivity).
  split; [reflexivity |]. split; [vm_compute; reflexivity |].
  split; [vm_compute; reflexivity |]. split; [vm_compute; reflexivity |].
  split; [exact E |]. rewrite E. discriminate.
Qed.

(** C3, amended.  Starting from the delay of 100, after the [N] disconnects
    of a trace in which no stabilization reset fires, the reconnect delay is
    [100 * 2^N] as long as [N <= 1017], and [Infinity] from the 1018th
    disconnect on; the reconnect attempt a further disconnect schedules is
    armed with the delay held before its doubling, and the delay is then
    [100 * 2^(N+1)] if [N + 1 <= 1017] and [Infinity] otherwise. *)
Theorem reconnectDelay_after_disconnects (w : World) (trace : list Event) :
  reconnectDelay w = 100 ->
  no_reset trace w = true ->
  reconnectDelay (run trace w) =
    (if (disconnects trace <=? 1017)%nat
     then Finite (100 * 2 ^ Z.of_nat (disconnects trace))
     else Infinity)
  /\ exists t,
       In t (timeouts (browser (step PortDisconnected (run trace w))))
       /\ reconnectTimer (step PortDisconnected (run trace w)) = Some (timeout_id t)
       /\ callback t = cb_connect
       /\ delay t = reconnectDelay (run trace w)
       /\ reconnectDelay (step PortDisconnected (run trace w)) =
          (if (S (disconnects trace) <=? 1017)%nat
           then Finite (100 * 2 ^ (Z.of_nat (disconnects trace) + 1))
           else Infinity).
Proof.
  intros Hbase Hno.
  pose proof (run_delay trace w Hno) as Hrun. rewrite Hbase in Hrun.
  split; [rewrite Hrun; apply doubled_base |].
  destruct (onDisconnect_world (run trace w))
    as (_ & Hdelay & _ & Htimer & Htimeouts & _).
  exists (reconnect_timeout (run trace w)). unfold step, dispatch.
  repeat split.
  - rewrite Htimeouts. apply in_or_app. right. left. reflexivity.
  - exact Htimer.
  - rewrite Hdelay, Hrun.
    change (times_two (doubled (disconnects trace) 100))
      with (doubled (S (disconnects trace)) 100).
    rewrite doubled_base, Nat2Z.inj_succ. reflexivity.
Qed.

Lemma reconnectDelay_after_disconnects_witness :
  let trace := [Startup; PortDisconnected; Elapsed 100; TimeoutFired 2;
                PortDisconnected] in
  reconnectDelay (initial idle_browser) = 100
  /\ no_reset trace (initial idle_browser) = true
  /\ reconnectDelay (run trace (initial idle_browser)) = 400.
Proof.
  split; [reflexivity |]. split; [reflexivity |].
  exact (proj1 (reconnectDelay_after_disconnects (initial idle_browser)
                  [Startup; PortDisconnected; Elapsed 100; TimeoutFired 2;
                   PortDisconnected] eq_refl eq_refl)).
Defined.

(** C4.  If after a connect no disconnect arrives while at least 90% of the
    current delay passes, and the timeouts that came due have fired, then
    the stabilization timeout is among them and the delay is back at 100, so
    that the next disconnect arms its reconnect attempt with the base delay
    and not with a doubled one. *)
Theorem stabilization_resets_delay (w : World) (trace : list Event) :
  forallb (fun e => negb (is_disconnect e)) trace = true ->
  clock (browser (exec connect w)) + wait (nine_tenths (reconnectDelay w))
    <= clock (browser (run trace (exec connect w))) ->
  none_overdue (run trace (exec connect w)) = true ->
  reconnectDelay (run trace (exec connect w)) = 100
  /\ exists t,
       In t (timeouts (browser (step PortDisconnected (run trace (exec connect w)))))
       /\ reconnectTimer (step PortDisconnected (run trace (exec connect w)))
          = Some (timeout_id t)
       /\ callback t = cb_connect
       /\ delay t = 100.
Proof.
  intros Hnd Hlate Hdue.
  destruct (connect_world w) as (_ & _ & _ & _ & Htimeouts & Hclock).
  assert (Hinv : In (reset_timeout w) (timeouts (browser (exec connect w)))
                 \/ reconnectDelay (exec connect w) = 100).
  { left. rewrite Htimeouts. apply in_or_app. right. left. reflexivity. }
  apply (run_armed_or_reset (reset_timeout w) trace _ eq_refl Hnd) in Hinv.
  assert (Hreset : reconnectDelay (run trace (exec connect w)) = 100).
  { destruct Hinv as [Hin | Hd]; [exfalso | exact Hd].
    unfold none_overdue in Hdue. rewrite forallb_forall in Hdue.
    specialize (Hdue _ Hin). apply Z.ltb_lt in Hdue.
    pose proof (run_clock trace (exec connect w)) as Hmono.
    unfold reset_timeout in Hdue. cbn [due] in Hdue. rewrite Hclock in *. lia. }
  split; [exact Hreset |].
  destruct (onDisconnect_world (run trace (exec connect w)))
    as (_ & _ & _ & Htimer & Hts & _).
  exists (reconnect_timeout (run trace (exec connect w))). unfold step, dispatch.
  repeat split.
  - rewrite Hts. apply in_or_app. right. left. reflexivity.
  - exact Htimer.
  - exact Hreset.
Qed.

Lemma stabilization_resets_delay_witness :
  let w := set_reconnectDelay 400 (initial idle_browser) in
  let trace := [Elapsed 360; TimeoutFired 1] in
  forallb (fun e => negb (is_disconnect e)) trace = true
  /\ clock (browser (exec connect w)) + wait (nine_tenths (reconnectDelay w))
       <= clock (browser (run trace (exec connect w)))
  /\ none_overdue (run trace (exec connect w)) = true
  /\ reconnectDelay (run trace (exec connect w)) = 100.
Proof.
  split; [reflexivity |]. split; [vm_compute; discriminate |].
  split; [reflexivity |].
  refine (proj1 (stabilization_resets_delay
                   (set_reconnectDelay 400 (initial idle_browser))
                   [Elapsed 360; TimeoutFired 1] eq_refl _ eq_refl)).
  vm_compute; discriminate.
Defined.

(** ** The context menu *)

(** A loop whose body only creates items leaves the items of all its rounds,
    in order, after those already there. *)
Lemma for_of_creates (f : Device -> list CreateProperties)
      (body : Device -> Js unit) :
  (forall d w, fst (body d w) = Returned tt
               /\ contextMenus (browser (snd (body d w))) =
                  (contextMenus (browser w) ++ f d)%list) ->
  forall l w, fst (for_of l body w) = Returned tt
              /\ contextMenus (browser (snd (for_of l body w))) =
                 (contextMenus (browser w) ++ flat_map f l)%list.
Proof.
  intros Hbody l. induction l as [| d rest IH]; intro w; simpl.
  - split; [reflexivity | symmetry; apply app_nil_r].
  - unfold bind. destruct (Hbody d w) as [Hr Hm].
    destruct (body d w) as [[[] | e] w1]; simpl in *; [| discriminate].
    destruct (IH w1) as [Hr' Hm']. split; [exact Hr' |].
    rewrite Hm', Hm, app_assoc. reflexivity.
Qed.

(** The menu [createContextMenu] leaves is a function of the tab and the
    roster alone. *)
Lemma createContextMenu_menu (tab : option Tab) (w : World) :
  contextMenus (browser (exec (createContextMenu tab) w)) =
  menu_for tab (devices (State w)).
Proof.
  destruct tab as [t |]; [| run_js; repeat (break_match; cbn); reflexivity].
  unfold menu_for. destruct (_ABOUT_test (tab_url t)) eqn:Habout.
  - run_js. rewrite Habout. reflexivity.
  - destruct (devices (State w)) as [| b | l | dv u a] eqn:Hdev;
      try (run_js; rewrite Habout, Hdev; cbn; reflexivity).
    destruct l as [| d [| d' l']].
    + run_js. rewrite Habout, Hdev. reflexivity.
    + run_js. rewrite Habout, Hdev. cbn. unfold items_top_level.
      destruct (share d), (telephony d); reflexivity.
    + assert (Hz : is_zero (Some (Z.of_nat (List.length (d :: d' :: l')))) = false).
      { cbn [is_zero List.length]. apply Z.eqb_neq. lia. }
      assert (Hm : more_than_one (Some (Z.of_nat (List.length (d :: d' :: l'))))
                   = true).
      { cbn [more_than_one List.length]. apply Z.ltb_lt. lia. }
      unfold exec, createContextMenu, try_catch, bind at 1 2 3 4 5.
      cbv beta iota delta [contextMenus_removeAll modify url_of ret get].
      rewrite Habout. unfold length_of. cbn [State with_browser]. rewrite Hdev.
      cbv beta iota delta [ret]. rewrite Hz, Hm.
      cbv beta iota delta [contextMenus_create modify]. cbn [elements].
      match goal with
      | |- context [for_of ?l ?body ?w0] =>
          assert (Hb : forall dv w1,
                     fst (body dv w1) = Returned tt
                     /\ contextMenus (browser (snd (body dv w1))) =
                        (contextMenus (browser w1) ++ items_under_root dv)%list);
          [ intros dv w1; unfold items_under_root;
            destruct (share dv), (telephony dv);
            (split; [reflexivity |]);
            cbv beta iota delta [bind contextMenus_create modify andb];
            cbn [snd browser with_browser contextMenus set_contextMenus];
            rewrite <- ?app_assoc; reflexivity
          | destruct (for_of_creates items_under_root body Hb l w0) as [Hr Hc];
            destruct (for_of l body w0) as [[[] | e] w2];
            [ exact Hc | discriminate Hr ] ]
      end.
Qed.

(** C1 fails as stated: a device with neither capability is given the item
    [<id>:telephony], alone in the roster and next to another device. *)
Lemma no_capability_device_gets_item :
  share watch = false
  /\ telephony watch = false
  /\ contextMenus (browser (exec (createContextMenu (Some page))
                                 (with_roster [watch]))) =
     [mkItem "e5f6:telephony"
             (LocalizedWith "contextMenuSinglePlugin"
                [Literal "Watch"; Localized "smsMessage"])
             None (Some _CONTEXTS)]
  /\ In (mkItem "e5f6:telephony"
                (LocalizedWith "contextMenuSinglePlugin"
                   [Literal "Watch"; Localized "smsMessage"])
                (Some "contextMenuMultipleDevices") (Some _CONTEXTS))
        (contextMenus (browser (exec (createContextMenu (Some page))
                                     (with_roster [phone; watch])))).
Proof.
  repeat split; try reflexivity.
  rewrite createContextMenu_menu. vm_compute. tauto.
Qed.

(** C1, amended.  On a page that is not internal, a device with neither
    capability is never given a grouping item, and is given exactly one leaf
    item, [<id>:telephony] with the single-plugin title: at the top level
    when it is the only device, beneath the grouping item
    [contextMenuMultipleDevices] otherwise, between the items of the devices
    before it and after it. *)
Theorem createContextMenu_no_capability
        (w : World) (t : Tab) (before after : list Device) (d : Device) :
  devices (State w) = DDevices (before ++ d :: after) ->
  _ABOUT_test (tab_url t) = false ->
  share d = false ->
  telephony d = false ->
  contextMenus (browser (exec (createContextMenu (Some t)) w)) =
  match (before ++ after)%list with
  | [] =>
      [mkItem (id d ++ ":telephony")
              (LocalizedWith "contextMenuSinglePlugin"
                 [Literal (name d); Localized "smsMessage"])
              None (Some _CONTEXTS)]
  | _ :: _ =>
      (root_item :: flat_map items_under_root before
       ++ [mkItem (id d ++ ":telephony")
                  (LocalizedWith "contextMenuSinglePlugin"
                     [Literal (name d); Localized "smsMessage"])
                  (Some "contextMenuMultipleDevices") (Some _CONTEXTS)]
       ++ flat_map items_under_root after)%list
  end.
Proof.
  intros Hdev Habout Hshare Htel.
  rewrite createContextMenu_menu, Hdev. unfold menu_for. rewrite Habout.
  assert (Hd : items_under_root d =
               [mkItem (id d ++ ":telephony")
                       (LocalizedWith "contextMenuSinglePlugin"
                          [Literal (name d); Localized "smsMessage"])
                       (Some "contextMenuMultipleDevices") (Some _CONTEXTS)]).
  { unfold items_under_root. rewrite Hshare, Htel. reflexivity. }
  destruct before as [| b before'].
  - destruct after as [| a after']; cbn [app].
    + unfold items_top_level. rewrite Hshare, Htel. reflexivity.
    + cbn [flat_map]. rewrite Hd. reflexivity.
  - cbn [app]. destruct (before' ++ d :: after)%list eqn:E.
    + destruct before'; discriminate E.
    + rewrite <- E.
      change (b :: before' ++ d :: after)%list
        with ((b :: before') ++ d :: after)%list.
      rewrite flat_map_app. cbn [flat_map]. rewrite Hd. reflexivity.
Qed.

Lemma createContextMenu_no_capability_witness :
  devices (State (with_roster [phone; watch])) = DDevices ([phone] ++ watch :: [])
  /\ _ABOUT_test (tab_url page) = false
  /\ share watch = false
  /\ telephony watch = false
  /\ contextMenus (browser (exec (createContextMenu (Some page))
                                 (with_roster [phone; watch]))) =
     (root_item :: flat_map items_under_root [phone]
      ++ [mkItem "e5f6:telephony"
                 (LocalizedWith "contextMenuSinglePlugin"
                    [Literal "Watch"; Localized "smsMessage"])
                 (Some "contextMenuMultipleDevices") (Some _CONTEXTS)]
      ++ flat_map items_under_root [])%list.
Proof.
  do 4 (split; [reflexivity |]).
  exact (createContextMenu_no_capability (with_roster [phone; watch]) page
           [phone] [] watch eq_refl eq_refl eq_refl eq_refl).
Defined.

(** C8.  For a roster of exactly two devices with both capabilities and a
    page that is not internal, the menu is one grouping root, beneath it one
    subgroup per device, and beneath each subgroup the two leaves
    [<id>:share] and [<id>:telephony]: seven items, four of them leaves. *)
Theorem createContextMenu_two_devices (w : World) (t : Tab) (d1 d2 : Device) :
  devices (State w) = DDevices [d1; d2] ->
  share d1 = true -> telephony d1 = true ->
  share d2 = true -> telephony d2 = true ->
  _ABOUT_test (tab_url t) = false ->
  contextMenus (browser (exec (createContextMenu (Some t)) w)) =
  [ mkItem "contextMenuMultipleDevices"
           (Plain (Localized "contextMenuMultipleDevices")) None (Some _CONTEXTS);
    mkItem (id d1) (Plain (Literal (name d1)))
           (Some "contextMenuMultipleDevices") None;
    mkItem (id d1 ++ ":share") (Plain (Localized "shareMessage"))
           (Some (id d1)) (Some _CONTEXTS);
    mkItem (id d1 ++ ":telephony") (Plain (Localized "smsMessage"))
           (Some (id d1)) (Some _CONTEXTS);
    mkItem (id d2) (Plain (Literal (name d2)))
           (Some "contextMenuMultipleDevices") None;
    mkItem (id d2 ++ ":share") (Plain (Localized "shareMessage"))
           (Some (id d2)) (Some _CONTEXTS);
    mkItem (id d2 ++ ":telephony") (Plain (Localized "smsMessage"))
           (Some (id d2)) (Some _CONTEXTS) ].
Proof.
  intros Hdev Hs1 Ht1 Hs2 Ht2 Habout.
  rewrite createContextMenu_menu, Hdev. unfold menu_for. rewrite Habout.
  cbn [flat_map]. unfold items_under_root, root_item.
  rewrite Hs1, Ht1, Hs2, Ht2. reflexivity.
Qed.

Lemma createContextMenu_two_devices_witness :
  devices (State (with_roster [phone; tablet])) = DDevices [phone; tablet]
  /\ share phone = true /\ telephony phone = true
  /\ share tablet = true /\ telephony tablet = true
  /\ _ABOUT_test (tab_url page) = false
  /\ map menu_id
         (contextMenus (browser (exec (createContextMenu (Some page))
                                      (with_roster [phone; tablet])))) =
     ["contextMenuMultipleDevices"; "a1b2"; "a1b2:share"; "a1b2:telephony";
      "c3d4"; "c3d4:share"; "c3d4:telephony"].
Proof.
  do 6 (split; [reflexivity |]).
  exact (f_equal (map menu_id)
           (createContextMenu_two_devices (with_roster [phone; tablet]) page
              phone tablet eq_refl eq_refl eq_refl eq_refl eq_refl eq_refl)).
Defined.

(** ** Messages *)

(** A [try] whose handler is [logError] returns, whatever its body does. *)
Lemma try_logError_returns (body : Js unit) (w : World) :
  fst (try_catch body logError w) = Returned tt.
Proof.
  unfold try_catch. destruct (body w) as [[[] | e] w']; [reflexivity |].
  unfold logError. destruct (negb (existsb (String.eqb (message e)) _MUTE));
    reflexivity.
Qed.

Lemma ui_only_refl (w : World) : ui_only w w.
Proof. repeat split. Qed.

Lemma ui_only_trans (a b c : World) : ui_only a b -> ui_only b c -> ui_only a c.
Proof.
  intros (H1 & H2 & H3 & H4 & H5 & H6) (K1 & K2 & K3 & K4 & K5 & K6).
  repeat split; etransitivity; eassumption.
Qed.

Ltac ui_leaf := repeat split.

Ltac ui_tac :=
  autounfold with js;
  keeps_syntax ui_only_refl ui_only_trans ui_leaf.

Lemma forwardPortMessage_ui (m : Message) : keeps ui_only (forwardPortMessage m).
Proof. ui_tac. Qed.

Lemma createContextMenu_ui (tab : option Tab) : keeps ui_only (createContextMenu tab).
Proof. ui_tac. Qed.

(** With a channel and a typed message, [postMessage] hands the message to
    the channel and touches nothing of the script's state. *)
Lemma postMessage_forwards (w : World) (p : Port) (m : Message) :
  port (State w) = Some p ->
  truthy_str (type m) = true ->
  posted (browser (exec (postMessage (Some m)) w)) =
    (posted (browser w) ++ [(p, m)])%list
  /\ State (exec (postMessage (Some m)) w) = State w.
Proof.
  intros Hp Ht.
  assert (E : postMessage (Some m) w = try_catch (Port_postMessage p m) logError w).
  { unfold postMessage, try_catch. unfold bind at 1.
    cbv beta iota delta [get]. rewrite Hp, Ht. reflexivity. }
  unfold exec. rewrite E. unfold try_catch, Port_postMessage.
  cbv beta iota delta [bind modify get].
  cbn [browser with_browser portFault set_posted].
  destruct (portFault (browser w)) as [e |]; [| split; reflexivity].
  unfold throw, logError.
  destruct (negb (existsb (String.eqb (message e)) _MUTE)); split; reflexivity.
Qed.

(** Without a channel, or without a typed message, [postMessage] logs a
    warning and does nothing else. *)
Lemma postMessage_drops (w : World) (message : option Message) :
  port (State w) = None \/ message = None
  \/ (exists m, message = Some m /\ truthy_str (type m) = false) ->
  exec (postMessage message) w =
  with_browser
    (fun b => set_console (console b ++ [Warn "Missing message parameters"]) b) w.
Proof.
  intro H. unfold exec, postMessage, try_catch. unfold bind at 1.
  cbv beta iota delta [get]. unfold console_warn, modify.
  destruct H as [H | [H | (m & Hm & Ht)]].
  - rewrite H. reflexivity.
  - rewrite H. destruct (port (State w)); reflexivity.
  - rewrite Hm, Ht. destruct (port (State w)); reflexivity.
Qed.

Lemma postMessage_returns (message : option Message) (w : World) :
  fst (postMessage message w) = Returned tt.
Proof. apply try_logError_returns. Qed.

Lemma forwardPortMessage_returns (m : Message) (w : World) :
  fst (forwardPortMessage m w) = Returned tt.
Proof. apply try_logError_returns. Qed.

Lemma createContextMenu_returns (tab : option Tab) (w : World) :
  fst (createContextMenu tab w) = Returned tt.
Proof. apply try_logError_returns. Qed.

(** What handling [{type: 'connected', data: d}] comes to: the flag, then the
    request or the clearing of the roster, then the forwarding to the popup,
    then the menu for the active tab. *)
Lemma onPortMessage_connected_exec (d : bool) (tabs : list Tab) (w : World) :
  exec (onPortMessage (mkMessage (Some "connected") (DBool d)) tabs) w =
  exec (createContextMenu (hd_error tabs))
    (exec (forwardPortMessage (mkMessage (Some "connected") (DBool d)))
       (if d
        then exec (postMessage (Some (mkMessage (Some "devices") DUndefined)))
                  (with_State (set_connected (DBool true)) w)
        else with_State (set_devices (DDevices []))
                        (with_State (set_connected (DBool false)) w))).
Proof.
  unfold exec at 1. unfold onPortMessage.
  change (type_is (mkMessage (Some "connected") (DBool d)) "connected") with true.
  cbv iota.
  match goal with
  | |- snd (try_catch (bind ?A ?k) _ _) = _ =>
      assert (HA : A w =
                   (Returned tt,
                    if d
                    then exec (postMessage
                                 (Some (mkMessage (Some "devices") DUndefined)))
                              (with_State (set_connected (DBool true)) w)
                    else with_State (set_devices (DDevices []))
                           (with_State (set_connected (DBool false)) w)))
  end.
  { cbv beta iota delta [bind modify get]. cbn [data].
    destruct d; cbn [truthy connected State with_State set_connected].
    - unfold exec.
      pose proof (postMessage_returns
                    (Some (mkMessage (Some "devices") DUndefined))
                    (with_State (set_connected (DBool true)) w)) as Hr.
      destruct (postMessage _ _) as [[[] | e] w1]; [reflexivity | discriminate Hr].
    - reflexivity. }
  rewrite try_returns.
  - rewrite bind_returns by (rewrite HA; reflexivity).
    rewrite bind_returns by apply forwardPortMessage_returns.
    unfold exec. rewrite HA. reflexivity.
  - rewrite bind_returns by (rewrite HA; reflexivity).
    rewrite bind_returns by apply forwardPortMessage_returns.
    apply createContextMenu_returns.
Qed.

Lemma onPortMessage_devices_exec (ds : Data) (tabs : list Tab) (w : World) :
  exec (onPortMessage (mkMessage (Some "devices") ds) tabs) w =
  exec (createContextMenu (hd_error tabs))
    (exec (forwardPortMessage (mkMessage (Some "devices") ds))
       (with_State (set_devices ds)
          (with_State (set_connected (DBool true)) w))).
Proof.
  unfold exec at 1. unfold onPortMessage.
  change (type_is (mkMessage (Some "devices") ds) "connected") with false.
  change (type_is (mkMessage (Some "devices") ds) "devices") with true.
  cbv iota.
  rewrite try_returns.
  - rewrite bind_returns by reflexivity.
    rewrite bind_returns by apply forwardPortMessage_returns.
    reflexivity.
  - rewrite bind_returns by reflexivity.
    rewrite bind_returns by apply forwardPortMessage_returns.
    apply createContextMenu_returns.
Qed.

(** C5.  Handling [{type: 'connected', data: d}] on an open channel sets the
    roster's connected flag to [d]; when [d] is true exactly one message,
    the request [{type: 'devices'}], is posted on the channel; when [d] is
    false the device list is cleared to [[]] and nothing is posted. *)
Theorem onPortMessage_connected_roster
        (w : World) (p : Port) (d : bool) (tabs : list Tab) :
  port (State w) = Some p ->
  connected (State (exec (onPortMessage (mkMessage (Some "connected") (DBool d))
                                        tabs) w)) = DBool d
  /\ (d = true ->
      posted (browser (exec (onPortMessage
                               (mkMessage (Some "connected") (DBool d)) tabs) w)) =
      (posted (browser w) ++ [(p, mkMessage (Some "devices") DUndefined)])%list)
  /\ (d = false ->
      devices (State (exec (onPortMessage
                              (mkMessage (Some "connected") (DBool d)) tabs) w)) =
      DDevices []
      /\ posted (browser (exec (onPortMessage
                                  (mkMessage (Some "connected") (DBool d)) tabs) w)) =
         posted (browser w)).
Proof.
  intro Hp. rewrite onPortMessage_connected_exec.
  match goal with
  | |- context [exec (createContextMenu ?tab) (exec (forwardPortMessage ?m) ?w1)] =>
      destruct (createContextMenu_ui tab (exec (forwardPortMessage m) w1))
        as (HS2 & _ & _ & _ & _ & HP2);
      destruct (forwardPortMessage_ui m w1) as (HS1 & _ & _ & _ & _ & HP1)
  end.
  unfold exec in *. rewrite HS2, HS1, HP2, HP1. clear HS2 HS1 HP2 HP1.
  destruct d.
  - destruct (postMessage_forwards (with_State (set_connected (DBool true)) w)
                p (mkMessage (Some "devices") DUndefined) Hp eq_refl)
      as [Hposted HState].
    unfold exec in *. rewrite HState, Hposted.
    split; [reflexivity |]. split; [intros _; reflexivity |].
    intro H; discriminate H.
  - split; [reflexivity |]. split; [intro H; discriminate H |].
    intros _. split; reflexivity.
Qed.

Lemma onPortMessage_connected_roster_witness :
  port (State (with_roster [phone])) = Some gsconnect
  /\ posted (browser (exec (onPortMessage
                              (mkMessage (Some "connected") (DBool true)) [page])
                           (with_roster [phone]))) =
     [(gsconnect, mkMessage (Some "devices") DUndefined)].
Proof.
  split; [reflexivity |].
  exact (proj1 (proj2 (onPortMessage_connected_roster (with_roster [phone]) gsconnect
                         true [page] eq_refl)) eq_refl).
Defined.

(** C10.  Handling [{type: 'connected', data: true}] leaves the device list
    as it was; the menu it rebuilds is the one [createContextMenu] builds
    from that list for the active tab; and the list stays until a
    [{type: 'devices'}] message replaces it with its data. *)
Theorem onPortMessage_connected_keeps_devices (w : World) (tabs : list Tab) :
  devices (State (exec (onPortMessage (mkMessage (Some "connected") (DBool true))
                                      tabs) w)) = devices (State w)
  /\ contextMenus (browser (exec (onPortMessage
                                    (mkMessage (Some "connected") (DBool true))
                                    tabs) w)) =
     contextMenus (browser (exec (createContextMenu (hd_error tabs)) w))
  /\ forall (ds : Data) (tabs' : list Tab),
       devices (State (exec (onPortMessage (mkMessage (Some "devices") ds) tabs')
                         (exec (onPortMessage
                                  (mkMessage (Some "connected") (DBool true))
                                  tabs) w))) = ds.
Proof.
  assert (Hdev : forall m w1,
             devices (State (exec (forwardPortMessage m) w1)) = devices (State w1)).
  { intros m w1. destruct (forwardPortMessage_ui m w1) as (HS & _).
    unfold exec. rewrite HS. reflexivity. }
  assert (Hmenu : forall tab w1,
             devices (State (exec (createContextMenu tab) w1)) = devices (State w1)).
  { intros tab w1. destruct (createContextMenu_ui tab w1) as (HS & _).
    unfold exec. rewrite HS. reflexivity. }
  assert (Hpost : forall m w1,
             State (exec (postMessage m) w1) = State w1).
  { intros m w1. destruct (port (State w1)) as [p |] eqn:Hp.
    - destruct m as [m |].
      + destruct (truthy_str (type m)) eqn:Ht.
        * apply (postMessage_forwards w1 p m Hp Ht).
        * rewrite postMessage_drops; [reflexivity |]. right. right.
          exists m. split; [reflexivity | exact Ht].
      + rewrite postMessage_drops; [reflexivity |]. right. left. reflexivity.
    - rewrite postMessage_drops; [reflexivity |]. left. exact Hp. }
  split; [| split].
  - rewrite onPortMessage_connected_exec, Hmenu, Hdev, Hpost. reflexivity.
  - rewrite onPortMessage_connected_exec, !createContextMenu_menu, Hdev, Hpost.
    reflexivity.
  - intros ds tabs'. rewrite onPortMessage_devices_exec, Hmenu, Hdev.
    reflexivity.
Qed.

(** C6 fails as stated: a message whose type is none of the recognized ones
    is forwarded all the same, with no warning. *)
Lemma unrecognized_type_is_forwarded :
  recognized_type (Some "ping") = false
  /\ port (State (with_roster [])) = Some gsconnect
  /\ posted (browser (exec (postMessage (Some (mkMessage (Some "ping") DUndefined)))
                           (with_roster []))) =
     [(gsconnect, mkMessage (Some "ping") DUndefined)]
  /\ console (browser (exec (postMessage (Some (mkMessage (Some "ping") DUndefined)))
                            (with_roster []))) = [].
Proof. repeat split. Qed.

(** C6, amended.  [postMessage] never raises an error to its caller.  It
    hands the message to the channel if and only if a channel handle is
    present and the message is present with a non-empty [type], whatever
    that type is; in every other case the world is left as it was but for
    one warning on the console: nothing is posted, queued or scheduled. *)
Theorem postMessage_guard (w : World) (message : option Message) :
  fst (postMessage message w) = Returned tt
  /\ (forall p m,
        port (State w) = Some p -> message = Some m ->
        truthy_str (type m) = true ->
        posted (browser (exec (postMessage message) w)) =
        (posted (browser w) ++ [(p, m)])%list)
  /\ (port (State w) = None \/ message = None
      \/ (exists m, message = Some m /\ truthy_str (type m) = false) ->
      exec (postMessage message) w =
      with_browser
        (fun b => set_console (console b ++ [Warn "Missing message parameters"]) b)
        w).
Proof.
  split; [apply postMessage_returns |]. split.
  - intros p m Hp Hm Ht. subst message. apply (postMessage_forwards w p m Hp Ht).
  - apply postMessage_drops.
Qed.

Lemma postMessage_guard_witness :
  posted (browser (exec (postMessage (Some (mkMessage (Some "devices") DUndefined)))
                        (with_roster [phone]))) =
    [(gsconnect, mkMessage (Some "devices") DUndefined)]
  /\ posted (browser (exec (postMessage (Some (mkMessage None DUndefined)))
                           (with_roster [phone]))) = [].
Proof.
  split.
  - exact (proj1 (proj2 (postMessage_guard (with_roster [phone])
                           (Some (mkMessage (Some "devices") DUndefined))))
             gsconnect _ eq_refl eq_refl eq_refl).
  - rewrite (proj2 (proj2 (postMessage_guard (with_roster [phone])
                             (Some (mkMessage None DUndefined))))
               (or_intror (or_intror
                  (ex_intro _ (mkMessage None DUndefined) (conj eq_refl eq_refl))))).
    reflexivity.
Defined.

Lemma prefix_app (s t : string) : prefix s (s ++ t) = true.
Proof.
  induction s as [| c s IH]; simpl; [destruct t; reflexivity |].
  destruct (ascii_dec c c) as [_ | N]; [exact IH | contradiction].
Qed.

Lemma includes_app (sub a b : string) : includes sub (a ++ sub ++ b) = true.
Proof.
  induction a as [| c a IH].
  - cbn [append]. pose proof (prefix_app sub b) as H.
    destruct (sub ++ b); cbn [includes]; rewrite H; reflexivity.
  - cbn [append includes]. rewrite IH. apply orb_true_r.
Qed.

Lemma prefix_split (sub s : string) :
  prefix sub s = true -> exists after, s = sub ++ after.
Proof.
  revert s. induction sub as [| c sub IH]; intros s H.
  - exists s. reflexivity.
  - destruct s as [| b s]; simpl in H; [discriminate H |].
    destruct (ascii_dec c b) as [E | _]; [| discriminate H].
    destruct (IH s H) as (after & Hs). exists after.
    subst b. rewrite Hs. reflexivity.
Qed.

(** [includes] finds the substring exactly where there is one. *)
Lemma includes_split (sub s : string) :
  includes sub s = true -> exists before after, s = before ++ sub ++ after.
Proof.
  induction s as [| c s IH]; cbn [includes]; intro H.
  - rewrite orb_false_r in H. destruct (prefix_split _ _ H) as (after & Hs).
    exists EmptyString, after. exact Hs.
  - apply orb_true_iff in H as [H | H].
    + destruct (prefix_split _ _ H) as (after & Hs).
      exists EmptyString, after. exact Hs.
    + destruct (IH H) as (before & after & Hs).
      exists (String c before), after. rewrite Hs. reflexivity.
Qed.

(** A sender the popup check turns down leaves the world as it was. *)
Lemma onPopupMessage_turned_down
      (w : World) (message : option Message) (sender : MessageSender) :
  from_popup sender = false ->
  onPopupMessage message sender w = (Returned tt, w).
Proof.
  intro H. unfold onPopupMessage, try_catch. rewrite H. reflexivity.
Qed.

(** C7 fails as stated: a page that is no page of the extension, whatever
    the extension's id, has its message forwarded to the channel as soon as
    its url holds ['/popup.html']. *)
Lemma popup_lookalike_is_forwarded :
  (forall extension_id,
      origin_is_extension extension_id
        (mkSender (Some "https://evil.example/popup.html?x=1")) = false)
  /\ posted (browser (exec (onPopupMessage
                              (Some (mkMessage (Some "share")
                                       (DShare (Some "a1b2")
                                          (Some "https://evil.example/")
                                          (Some "share"))))
                              (mkSender (Some "https://evil.example/popup.html?x=1")))
                           (with_roster [phone]))) =
     [(gsconnect,
       mkMessage (Some "share")
         (DShare (Some "a1b2") (Some "https://evil.example/") (Some "share")))].
Proof.
  split; [intro extension_id; reflexivity | vm_compute; reflexivity].
Qed.

(** C7, amended.  What decides is the text of the sender's url, not its
    origin.  For every message and every sender whose url is missing or
    holds ['/popup.html'] nowhere, [onPopupMessage] returns and leaves the
    world as it was: nothing is sent on the channel, nothing is logged, no
    error is raised.  For every sender whose url holds ['/popup.html']
    somewhere, the message is handled as [postMessage] handles it. *)
Theorem onPopupMessage_popup_path_gate
        (w : World) (message : option Message) (sender : MessageSender) :
  ((forall before after,
       sender_url sender <> Some (before ++ "/popup.html" ++ after)) ->
   onPopupMessage message sender w = (Returned tt, w))
  /\ (forall before after,
        sender_url sender = Some (before ++ "/popup.html" ++ after) ->
        onPopupMessage message sender w = postMessage message w).
Proof.
  split.
  - intro Hnone. apply onPopupMessage_turned_down.
    unfold from_popup. destruct (sender_url sender) as [u |]; [| reflexivity].
    destruct (includes "/popup.html" u) eqn:Hinc; [| apply andb_false_r].
    exfalso. destruct (includes_split _ _ Hinc) as (before & after & Hu).
    apply (Hnone before after). rewrite Hu. reflexivity.
  - intros before after Hu.
    assert (H : from_popup sender = true).
    { unfold from_popup. rewrite Hu, includes_app.
      destruct before; reflexivity. }
    unfold onPopupMessage. rewrite H.
    rewrite try_returns by apply try_logError_returns. reflexivity.
Qed.

Lemma onPopupMessage_popup_path_gate_witness :
  posted (browser (exec (onPopupMessage
                           (Some (mkMessage (Some "devices") DUndefined))
                           (mkSender (Some "https://example.org/index.html")))
                        (with_roster [phone]))) = []
  /\ posted (browser (exec (onPopupMessage
                              (Some (mkMessage (Some "devices") DUndefined))
                              (mkSender (Some "chrome-extension://abcdef/popup.html")))
                           (with_roster [phone]))) =
     [(gsconnect, mkMessage (Some "devices") DUndefined)].
Proof.
  split.
  - unfold exec.
    rewrite (proj1 (onPopupMessage_popup_path_gate (with_roster [phone])
                      (Some (mkMessage (Some "devices") DUndefined))
                      (mkSender (Some "https://example.org/index.html")))).
    + reflexivity.
    + intros before after E.
      assert (H : includes "/popup.html" "https://example.org/index.html" = true).
      { replace "https://example.org/index.html"
          with (before ++ "/popup.html" ++ after);
          [apply includes_app |
           cbn [sender_url] in E; injection E as E'; symmetry; exact E']. }
      vm_compute in H. discriminate H.
  - unfold exec.
    rewrite (proj2 (onPopupMessage_popup_path_gate (with_roster [phone])
                      (Some (mkMessage (Some "devices") DUndefined))
                      (mkSender (Some "chrome-extension://abcdef/popup.html")))
               "chrome-extension://abcdef" "" eq_refl).
    reflexivity.
Defined.

(** ** The menu identifiers *)

Lemma split_no_sep (sep : ascii) (s : string) :
  occurs sep s = false -> split sep s = [s].
Proof.
  induction s as [| c rest IH]; simpl; intro H.
  - reflexivity.
  - apply orb_false_iff in H as [Hc Hrest].
    rewrite Hc, (IH Hrest). reflexivity.
Qed.

Lemma split_encoded (sep : ascii) (i a : string) :
  occurs sep i = false -> occurs sep a = false ->
  split sep (i ++ String sep a) = [i; a].
Proof.
  intros Hi Ha. induction i as [| c rest IH]; simpl in *.
  - rewrite Ascii.eqb_refl, (split_no_sep _ _ Ha). reflexivity.
  - apply orb_false_iff in Hi as [Hc Hrest].
    rewrite Hc, (IH Hrest). reflexivity.
Qed.

(** C9.  For a device id without [':'] and an action among [share] and
    [telephony], a click on the item [<id>:<action>] makes [onContextItem]
    post on the open channel exactly one message, of type [share], whose
    data carry the original id as [device] and the original action as
    [action], next to the url of the click. *)
Theorem onContextItem_roundtrip
        (w : World) (p : Port) (info : OnClickData) (i action : string) :
  occurs ":" i = false ->
  action = "share" \/ action = "telephony" ->
  menuItemId info = i ++ ":" ++ action ->
  port (State w) = Some p ->
  posted (browser (exec (onContextItem info) w)) =
  (posted (browser w)
   ++ [(p, mkMessage (Some "share")
             (DShare (Some i)
                (js_or (js_or (js_or (linkUrl info) (srcUrl info))
                              (frameUrl info))
                       (pageUrl info))
                (Some action)))])%list.
Proof.
  intros Hi Haction Hid Hp.
  assert (Ha : occurs ":" action = false).
  { destruct Haction; subst action; reflexivity. }
  unfold exec, onContextItem.
  rewrite try_returns by apply postMessage_returns.
  rewrite Hid.
  change (i ++ ":" ++ action) with (i ++ String ":" action).
  rewrite (split_encoded _ _ _ Hi Ha). cbn [nth_error].
  apply postMessage_forwards; [exact Hp | reflexivity].
Qed.

Lemma onContextItem_roundtrip_witness :
  occurs ":" "a1b2" = false
  /\ menuItemId (mkInfo "a1b2:telephony" None None None (Some "https://example.org/"))
     = "a1b2" ++ ":" ++ "telephony"
  /\ port (State (with_roster [phone])) = Some gsconnect
  /\ posted (browser (exec (onContextItem
                              (mkInfo "a1b2:telephony" None None None
                                      (Some "https://example.org/")))
                           (with_roster [phone]))) =
     [(gsconnect,
       mkMessage (Some "share")
         (DShare (Some "a1b2") (Some "https://example.org/") (Some "telephony")))].
Proof.
  do 3 (split; [reflexivity |]).
  exact (onContextItem_roundtrip (with_roster [phone]) gsconnect
           (mkInfo "a1b2:telephony" None None None (Some "https://example.org/"))
           "a1b2" "telephony" eq_refl (or_intror eq_refl) eq_refl eq_refl).
Defined.

(** An id with [':'] in it does not come back: the click on ["a:b:share"]
    names the device ["a"] and the action ["b"]. *)
Example onContextItem_colon_in_id :
  posted (browser (exec (onContextItem (mkInfo "a:b:share" None None None None))
                        (with_roster []))) =
  [(gsconnect, mkMessage (Some "share") (DShare (Some "a") None (Some "b")))].
Proof. reflexivity. Qed.

(** ** The disconnection *)

(** C2, on the code.  The service worker starts, the host reports one device,
    and the channel drops.  The flag is false, the port is gone, the
    stabilization timeout is cleared and one reconnect timeout is armed: but
    the device is still in the roster, and the next tab activation builds
    its menu from it. *)
Theorem onDisconnect_keeps_devices :
  let w := run [Startup;
                PortMessage (mkMessage (Some "devices") (DDevices [phone])) [page]]
               (initial idle_browser) in
  State w = mkState (DBool true) (DDevices [phone]) (Some gsconnect)
  /\ timeouts (browser w) = [mkTimeout 1 cb_resetDelay 90 90]
  /\ State (step PortDisconnected w) = mkState (DBool false) (DDevices [phone]) None
  /\ timeouts (browser (step PortDisconnected w)) = [mkTimeout 2 cb_connect 100 100]
  /\ reconnectResetTimer (step PortDisconnected w) = None
  /\ reconnectTimer (step PortDisconnected w) = Some 2
  /\ map menu_id (contextMenus (browser (run [PortDisconnected; TabActivated page] w)))
     = ["a1b2"; "a1b2:share"; "a1b2:telephony"].
Proof. vm_compute. repeat split. Qed.

(** On every world, [onDisconnect] keeps the device list. *)
Lemma onDisconnect_devices (w : World) :
  devices (State (exec onDisconnect w)) = devices (State w).
Proof.
  rewrite (proj1 (onDisconnect_world w)). reflexivity.
Qed.

(** * Further properties *)

(** ** The menu, case by case *)

(** X1.  With no tab to look at, on an internal page, or with an empty
    roster, [createContextMenu] leaves no item at all, whatever items were
    there before. *)
Theorem createContextMenu_empty (w : World) (tab : option Tab) :
  tab = None
  \/ (exists t, tab = Some t /\ _ABOUT_test (tab_url t) = true)
  \/ devices (State w) = DDevices [] ->
  contextMenus (browser (exec (createContextMenu tab) w)) = [].
Proof.
  intro H. rewrite createContextMenu_menu. unfold menu_for.
  destruct H as [H | [(t & Ht & Habout) | H]].
  - rewrite H. reflexivity.
  - rewrite Ht, Habout. reflexivity.
  - rewrite H. destruct tab as [t |]; [| reflexivity].
    destruct (_ABOUT_test (tab_url t)); reflexivity.
Qed.

Lemma createContextMenu_empty_witness :
  contextMenus (browser (exec (createContextMenu
                                 (Some (mkTab 3 (Some "chrome://extensions/"))))
                              (with_roster [phone; tablet]))) = [].
Proof.
  apply createContextMenu_empty. right. left.
  exists (mkTab 3 (Some "chrome://extensions/")). split; reflexivity.
Defined.

(** X2.  For a roster of one device on a page that is not internal: with
    both capabilities the menu is a top-level item named after the device
    with the two leaves beneath it; otherwise it is one flat item,
    [<id>:share] when the device shares and [<id>:telephony] when it does
    not, titled by the single-plugin template. *)
Theorem createContextMenu_single_device (w : World) (t : Tab) (d : Device) :
  devices (State w) = DDevices [d] ->
  _ABOUT_test (tab_url t) = false ->
  contextMenus (browser (exec (createContextMenu (Some t)) w)) =
  if share d && telephony d then
    [ mkItem (id d) (Plain (Literal (name d))) None (Some _CONTEXTS);
      mkItem (id d ++ ":share") (Plain (Localized "shareMessage"))
             (Some (id d)) (Some _CONTEXTS);
      mkItem (id d ++ ":telephony") (Plain (Localized "smsMessage"))
             (Some (id d)) (Some _CONTEXTS) ]
  else
    [ mkItem (id d ++ (if share d then ":share" else ":telephony"))
             (LocalizedWith "contextMenuSinglePlugin"
                [Literal (name d);
                 Localized (if share d then "shareMessage" else "smsMessage")])
             None (Some _CONTEXTS) ].
Proof.
  intros Hdev Habout. rewrite createContextMenu_menu, Hdev.
  unfold menu_for. rewrite Habout. unfold items_top_level.
  destruct (share d), (telephony d); reflexivity.
Qed.

Lemma createContextMenu_single_device_witness :
  map menu_id
      (contextMenus (browser (exec (createContextMenu (Some page))
                                   (with_roster [mkDevice "k9" "Laptop" true false]))))
  = ["k9:share"].
Proof.
  exact (f_equal (map menu_id)
           (createContextMenu_single_device
              (with_roster [mkDevice "k9" "Laptop" true false]) page
              (mkDevice "k9" "Laptop" true false) eq_refl eq_refl)).
Defined.

(** X3.  Building the menu is idempotent, and the menu built depends on the
    tab and the roster only: two worlds with the same roster get the same
    menu for the same tab. *)
Theorem createContextMenu_idempotent (w w' : World) (tab : option Tab) :
  contextMenus (browser (exec (createContextMenu tab)
                              (exec (createContextMenu tab) w))) =
  contextMenus (browser (exec (createContextMenu tab) w))
  /\ (devices (State w) = devices (State w') ->
      contextMenus (browser (exec (createContextMenu tab) w)) =
      contextMenus (browser (exec (createContextMenu tab) w'))).
Proof.
  split.
  - rewrite !createContextMenu_menu.
    destruct (createContextMenu_ui tab w) as (HS & _).
    unfold exec. rewrite HS. reflexivity.
  - intro H. rewrite !createContextMenu_menu, H. reflexivity.
Qed.

Lemma parents_first_under_root (l : list Device) (seen : list string) :
  In "contextMenuMultipleDevices" seen ->
  parents_first_from seen (flat_map items_under_root l) = true.
Proof.
  revert seen. induction l as [| d rest IH]; intros seen Hroot; [reflexivity |].
  assert (Hseen : existsb (String.eqb "contextMenuMultipleDevices") seen = true).
  { apply existsb_exists. exists "contextMenuMultipleDevices".
    split; [exact Hroot | apply String.eqb_refl]. }
  cbn [flat_map]. unfold items_under_root at 1.
  destruct (share d && telephony d); [| destruct (share d)];
    cbn [app parents_first_from parentId menu_id existsb];
    rewrite ?Hseen, ?String.eqb_refl, ?orb_true_r; cbn [andb orb];
    apply IH; cbn [In]; tauto.
Qed.

(** X4.  In every menu [createContextMenu] builds, an item that names a
    parent comes after the item it names: the browser is never asked to hang
    an item beneath one that does not exist yet. *)
Theorem createContextMenu_parents_first (w : World) (tab : option Tab) :
  parents_first (contextMenus (browser (exec (createContextMenu tab) w))) = true.
Proof.
  rewrite createContextMenu_menu. unfold menu_for, parents_first.
  destruct tab as [t |]; [| reflexivity].
  destruct (_ABOUT_test (tab_url t)); [reflexivity |].
  destruct (devices (State w)) as [| b | l | dv u a]; try reflexivity.
  destruct l as [| d [| d' l']]; [reflexivity | |].
  - unfold items_top_level.
    destruct (share d && telephony d); [| destruct (share d)];
      cbn [parents_first_from parentId menu_id existsb];
      rewrite ?String.eqb_refl, ?orb_true_r; reflexivity.
  - unfold root_item at 1. cbn [parents_first_from parentId menu_id andb].
    apply parents_first_under_root. left. reflexivity.
Qed.

(** ** From the menu to the click *)

Lemma onContextItem_exec (info : OnClickData) (w : World) :
  exec (onContextItem info) w =
  exec (postMessage
          (Some (mkMessage (Some "share")
                   (DShare (nth_error (split ":" (menuItemId info)) 0)
                      (js_or (js_or (js_or (linkUrl info) (srcUrl info))
                                    (frameUrl info))
                             (pageUrl info))
                      (nth_error (split ":" (menuItemId info)) 1))))) w.
Proof.
  unfold exec, onContextItem.
  rewrite try_returns by apply postMessage_returns. reflexivity.
Qed.

Lemma click_posts (w : World) (p : Port) (info : OnClickData) (i a : string) :
  occurs ":" i = false -> occurs ":" a = false ->
  menuItemId info = i ++ String ":" a ->
  port (State w) = Some p ->
  posted (browser (exec (onContextItem info) w)) =
  (posted (browser w)
   ++ [(p, mkMessage (Some "share")
             (DShare (Some i)
                (js_or (js_or (js_or (linkUrl info) (srcUrl info))
                              (frameUrl info))
                       (pageUrl info))
                (Some a)))])%list.
Proof.
  intros Hi Ha Hid Hp. rewrite onContextItem_exec, Hid.
  rewrite (split_encoded _ _ _ Hi Ha). cbn [nth_error].
  apply postMessage_forwards; [exact Hp | reflexivity].
Qed.

(** The items made for one device: its group, a share leaf if it shares, a
    telephony leaf if it does telephony or has no capability at all. *)
Lemma device_item_id (d : Device) (item : CreateProperties) :
  In item (items_under_root d) \/ In item (items_top_level d) ->
  menu_id item = id d
  \/ (menu_id item = id d ++ String ":" "share" /\ share d = true)
  \/ (menu_id item = id d ++ String ":" "telephony"
      /\ (telephony d = true \/ share d = false)).
Proof.
  unfold items_under_root, items_top_level.
  destruct (share d) eqn:Hs, (telephony d) eqn:Ht; cbn [andb In];
    intros [H | H];
    repeat match goal with
           | H : _ \/ _ |- _ => destruct H as [H | H]
           | H : False |- _ => contradiction
           end;
    subst item; cbn [menu_id]; tauto.
Qed.

Lemma menu_item_cases (tab : option Tab) (l : list Device)
      (item : CreateProperties) :
  In item (menu_for tab (DDevices l)) ->
  item = root_item
  \/ exists d, In d l /\ (In item (items_under_root d) \/ In item (items_top_level d)).
Proof.
  unfold menu_for. destruct tab as [t |]; [| contradiction].
  destruct (_ABOUT_test (tab_url t)); [contradiction |].
  destruct l as [| d [| d' l']]; [contradiction | |].
  - intro H. right. exists d. split; [left; reflexivity | right; exact H].
  - intros [H | H]; [left; symmetry; exact H |].
    right. apply in_flat_map in H as (x & Hx & Hin).
    exists x. split; [exact Hx | left; exact Hin].
Qed.

(** X5.  The menu and the click agree.  When no device id holds [':'], a
    click on any item of the built menu whose id holds [':'] posts, on the
    channel open at the time of the click, one [share] message that names a
    device of the roster the menu was built from; its action is [share] only
    for a device that shares, and [telephony] for a device that does
    telephony or has no capability. *)
Theorem menu_click_names_device
        (w w' : World) (tab : option Tab) (l : list Device)
        (item : CreateProperties) (p : Port)
        (link src frame page_url : option string) :
  devices (State w) = DDevices l ->
  (forall d, In d l -> occurs ":" (id d) = false) ->
  In item (contextMenus (browser (exec (createContextMenu tab) w))) ->
  occurs ":" (menu_id item) = true ->
  port (State w') = Some p ->
  exists d action,
    In d l
    /\ (action = "share" /\ share d = true
        \/ action = "telephony" /\ (telephony d = true \/ share d = false))
    /\ posted (browser (exec (onContextItem
                                (click_on item link src frame page_url)) w')) =
       (posted (browser w')
        ++ [(p, mkMessage (Some "share")
                  (DShare (Some (id d))
                     (js_or (js_or (js_or link src) frame) page_url)
                     (Some action)))])%list.
Proof.
  intros Hdev Hids Hin Hleaf Hp.
  rewrite createContextMenu_menu, Hdev in Hin.
  apply menu_item_cases in Hin as [Hroot | (d & Hd & Hitem)].
  - subst item. discriminate Hleaf.
  - pose proof (Hids d Hd) as Hid.
    destruct (device_item_id d item Hitem) as [H | [[H Hs] | [H Ht]]].
    + rewrite H, Hid in Hleaf. discriminate Hleaf.
    + exists d, "share". split; [exact Hd |]. split; [left; tauto |].
      apply (click_posts w' p (click_on item link src frame page_url)
               (id d) "share" Hid eq_refl H Hp).
    + exists d, "telephony". split; [exact Hd |]. split; [right; tauto |].
      apply (click_posts w' p (click_on item link src frame page_url)
               (id d) "telephony" Hid eq_refl H Hp).
Qed.

Lemma menu_click_names_device_witness :
  exists d action,
    In d [phone; watch]
    /\ (action = "share" /\ share d = true
        \/ action = "telephony" /\ (telephony d = true \/ share d = false))
    /\ posted (browser (exec (onContextItem
                                (click_on
                                   (mkItem "e5f6:telephony"
                                      (LocalizedWith "contextMenuSinglePlugin"
                                         [Literal "Watch"; Localized "smsMessage"])
                                      (Some "contextMenuMultipleDevices")
                                      (Some _CONTEXTS))
                                   None None None (Some "https://example.org/")))
                           (with_roster [phone; watch]))) =
       (posted (browser (with_roster [phone; watch]))
        ++ [(gsconnect,
             mkMessage (Some "share")
               (DShare (Some (id d))
                  (js_or (js_or (js_or None None) None)
                         (Some "https://example.org/"))
                  (Some action)))])%list.
Proof.
  refine (menu_click_names_device (with_roster [phone; watch])
            (with_roster [phone; watch]) (Some page) [phone; watch]
            (mkItem "e5f6:telephony"
               (LocalizedWith "contextMenuSinglePlugin"
                  [Literal "Watch"; Localized "smsMessage"])
               (Some "contextMenuMultipleDevices") (Some _CONTEXTS))
            gsconnect None None None (Some "https://example.org/")
            eq_refl _ _ eq_refl eq_refl).
  - intros d [H | [H | H]]; [subst d; reflexivity | subst d; reflexivity |
                             contradiction].
  - rewrite createContextMenu_menu. vm_compute. tauto.
Defined.

(** A string that holds the separator has a first one: what stands before
    it holds none. *)
Lemma occurs_split (sep : ascii) (s : string) :
  occurs sep s = true ->
  exists head tail, s = head ++ String sep tail /\ occurs sep head = false.
Proof.
  induction s as [| c s IH]; simpl; intro H; [discriminate H |].
  destruct (Ascii.eqb c sep) eqn:Hc.
  - exists EmptyString, s. apply Ascii.eqb_eq in Hc. subst c.
    split; reflexivity.
  - destruct (IH H) as (head & tail & Hs & Hhead).
    exists (String c head), tail. split.
    + rewrite Hs. reflexivity.
    + simpl. rewrite Hc. exact Hhead.
Qed.

Lemma occurs_after (sep : ascii) (a b : string) :
  occurs sep (a ++ String sep b) = true.
Proof.
  induction a as [| c a IH]; simpl.
  - rewrite Ascii.eqb_refl. reflexivity.
  - rewrite IH. apply orb_true_r.
Qed.

(** [split] cuts at the first separator and goes on behind it. *)
Lemma split_first (sep : ascii) (head tail : string) :
  occurs sep head = false ->
  split sep (head ++ String sep tail) = head :: split sep tail.
Proof.
  intro H. induction head as [| c head IH]; simpl in *.
  - rewrite Ascii.eqb_refl. reflexivity.
  - apply orb_false_iff in H as [Hc Hhead].
    rewrite Hc, (IH Hhead). reflexivity.
Qed.

Lemma append_after (a b c : string) : (a ++ b) ++ c = a ++ (b ++ c).
Proof.
  induction a as [| x a IH]; simpl; [reflexivity | rewrite IH; reflexivity].
Qed.

(** X6.  A device id that holds [':'] does not survive the click.  For the
    item id [<id>:<action>], [onContextItem] posts a message whose device is
    the part of the id before its first [':'], never the id itself, and
    whose action is what stands between that [':'] and the next one. *)
Theorem onContextItem_colon_breaks
        (w : World) (p : Port) (info : OnClickData) (i action : string) :
  occurs ":" i = true ->
  menuItemId info = i ++ ":" ++ action ->
  port (State w) = Some p ->
  exists head tail action' rest,
    i = head ++ ":" ++ tail
    /\ occurs ":" head = false
    /\ head <> i
    /\ tail ++ ":" ++ action = action' ++ ":" ++ rest
    /\ occurs ":" action' = false
    /\ posted (browser (exec (onContextItem info) w)) =
       (posted (browser w)
        ++ [(p, mkMessage (Some "share")
                  (DShare (Some head)
                     (js_or (js_or (js_or (linkUrl info) (srcUrl info))
                                   (frameUrl info))
                            (pageUrl info))
                     (Some action')))])%list.
Proof.
  intros Hi Hid Hp.
  destruct (occurs_split ":" i Hi) as (head & tail & Hsplit & Hhead).
  destruct (occurs_split ":" (tail ++ String ":" action)
              (occurs_after ":" tail action))
    as (action' & rest & Hrest & Haction).
  exists head, tail, action', rest.
  split; [exact Hsplit |]. split; [exact Hhead |].
  split; [intro E; rewrite E, Hi in Hhead; discriminate Hhead |].
  split; [exact Hrest |]. split; [exact Haction |].
  rewrite onContextItem_exec, Hid, Hsplit.
  change (head ++ String ":" tail) with (head ++ (String ":" EmptyString ++ tail)).
  change ((head ++ String ":" EmptyString ++ tail) ++ ":" ++ action)
    with ((head ++ String ":" tail) ++ String ":" action).
  rewrite append_after. cbn [append].
  rewrite (split_first ":" head _ Hhead), Hrest,
    (split_first ":" action' _ Haction).
  cbn [nth_error].
  apply postMessage_forwards; [exact Hp | reflexivity].
Qed.

Lemma onContextItem_colon_breaks_witness :
  exists head tail action' rest,
    "aa:bb" = head ++ ":" ++ tail
    /\ occurs ":" head = false
    /\ head <> "aa:bb"
    /\ tail ++ ":" ++ "share" = action' ++ ":" ++ rest
    /\ occurs ":" action' = false
    /\ posted (browser (exec (onContextItem
                                (mkInfo "aa:bb:share" None None None None))
                             (with_roster []))) =
       (posted (browser (with_roster []))
        ++ [(gsconnect, mkMessage (Some "share")
                          (DShare (Some head)
                             (js_or (js_or (js_or None None) None) None)
                             (Some action')))])%list.
Proof.
  exact (onContextItem_colon_breaks (with_roster []) gsconnect
           (mkInfo "aa:bb:share" None None None None) "aa:bb" "share"
           eq_refl eq_refl eq_refl).
Defined.

(** ** Observations a computation leaves alone *)

Lemma same_refl {T} (f : World -> T) (w : World) : same f w w.
Proof. reflexivity. Qed.

Lemma same_trans {T} (f : World -> T) (a b c : World) :
  same f a b -> same f b c -> same f a c.
Proof. unfold same. intros H K. rewrite K. exact H. Qed.

Ltac same_leaf := unfold same; reflexivity.

Lemma setTimeout_same T (f : World -> T) (cb : Callback) (ms : Number) :
  (forall w g, f (with_browser (fun b => set_nextTimeout (nextTimeout b + 1)
                                           (set_timeouts (g b) b)) w) = f w) ->
  keeps (same f) (setTimeout cb ms).
Proof. intros H w. unfold same, setTimeout. cbn [snd]. apply H. Qed.

Lemma connectNative_same T (f : World -> T) (a : string) :
  (forall w n, f (with_browser (set_nextPort n) w) = f w) ->
  keeps (same f) (runtime_connectNative a).
Proof.
  intros H w. unfold same, runtime_connectNative. cbn [snd].
  apply (H w (S (nextPort (browser w)))).
Qed.

(** Prove that a computation leaves an observation alone, where every
    primitive it runs does. *)
Ltac same_tac :=
  autounfold with js;
  repeat first
    [ apply setTimeout_same; intros; reflexivity
    | apply connectNative_same; intros; reflexivity
    | apply keeps_ret; intro; apply same_refl
    | apply keeps_throw; intro; apply same_refl
    | apply keeps_get; intro; apply same_refl
    | apply keeps_bind; [intros ? ? ?; apply same_trans | | intro]
    | apply keeps_try_catch; [intros ? ? ?; apply same_trans | | intro]
    | apply keeps_for_of;
      [intro; apply same_refl | intros ? ? ?; apply same_trans | intro]
    | apply keeps_modify; intro; solve [same_leaf]
    | match goal with
      | |- keeps _ (if ?b then _ else _) => destruct b
      | |- keeps _ (match ?x with _ => _ end) => destruct x
      end ].

(** ** Inbound messages *)

Lemma toggleAction_returns (tab : option Tab) (w : World) :
  fst (toggleAction tab w) = Returned tt.
Proof.
  unfold toggleAction, try_catch.
  destruct tab as [t |]; [| reflexivity].
  cbv beta iota delta [bind url_of ret].
  destruct (_ABOUT_test (tab_url t)); reflexivity.
Qed.

Lemma onPortMessage_returns (m : Message) (tabs : list Tab) (w : World) :
  fst (onPortMessage m tabs w) = Returned tt.
Proof. apply try_logError_returns. Qed.

(** What handling a message comes to: the roster part, then the forwarding
    to the popup, then the menu for the active tab. *)
Lemma onPortMessage_exec (m : Message) (tabs : list Tab) (w : World) :
  exec (onPortMessage m tabs) w =
  exec (createContextMenu (hd_error tabs))
    (exec (forwardPortMessage m) (roster_after m w)).
Proof.
  unfold exec at 1. unfold onPortMessage.
  match goal with
  | |- snd (try_catch (bind ?A ?k) _ _) = _ =>
      assert (HA : A w = (Returned tt, roster_after m w));
      [| assert (Hbody : bind A k w =
                         createContextMenu (hd_error tabs)
                           (exec (forwardPortMessage m) (roster_after m w))) ]
  end.
  - unfold roster_after.
    destruct (type_is m "connected").
    + cbv beta iota delta [bind modify get].
      cbn [truthy connected State with_State set_connected].
      destruct (truthy (data m)); [| reflexivity].
      unfold exec.
      pose proof (postMessage_returns
                    (Some (mkMessage (Some "devices") DUndefined))
                    (with_State (set_connected (data m)) w)) as Hr.
      destruct (postMessage _ _) as [[[] | e] w1]; [reflexivity | discriminate Hr].
    + destruct (type_is m "devices"); reflexivity.
  - rewrite bind_returns by (rewrite HA; reflexivity).
    rewrite bind_returns by apply forwardPortMessage_returns.
    unfold exec at 2. rewrite HA. reflexivity.
  - rewrite try_returns; rewrite Hbody; [reflexivity |].
    apply createContextMenu_returns.
Qed.

Lemma createContextMenu_sent (tab : option Tab) :
  keeps (same (fun w => sentMessages (browser w))) (createContextMenu tab).
Proof. same_tac. Qed.

Lemma postMessage_sent (m : option Message) :
  keeps (same (fun w => sentMessages (browser w))) (postMessage m).
Proof. same_tac. Qed.

Lemma forwardPortMessage_sent (m : Message) (w : World) :
  sentMessages (browser (exec (forwardPortMessage m) w)) =
  (sentMessages (browser w) ++ [m])%list.
Proof.
  unfold exec, forwardPortMessage, try_catch, runtime_sendMessage.
  cbv beta iota delta [bind modify get].
  cbn [browser with_browser sendFault set_sentMessages].
  destruct (sendFault (browser w)) as [e |]; [| reflexivity].
  unfold throw, logError.
  destruct (negb (existsb (String.eqb (message e)) _MUTE)); reflexivity.
Qed.

(** X7.  Every inbound message, whatever its type and data, is passed to
    the popup exactly once and as it came, and the handler returns. *)
Theorem onPortMessage_forwards_verbatim
        (w : World) (m : Message) (tabs : list Tab) :
  fst (onPortMessage m tabs w) = Returned tt
  /\ sentMessages (browser (exec (onPortMessage m tabs) w)) =
     (sentMessages (browser w) ++ [m])%list.
Proof.
  split; [apply onPortMessage_returns |].
  rewrite onPortMessage_exec.
  pose proof (createContextMenu_sent (hd_error tabs)
                (exec (forwardPortMessage m) (roster_after m w))) as H.
  unfold same in H. unfold exec at 1. rewrite H.
  rewrite forwardPortMessage_sent. f_equal.
  unfold roster_after.
  destruct (type_is m "connected"); [destruct (truthy (data m)) |
                                      destruct (type_is m "devices")];
    try reflexivity.
  exact (postMessage_sent _ (with_State (set_connected (data m)) w)).
Qed.

Lemma onPortMessage_after (m : Message) (tabs : list Tab) (w : World) :
  State (exec (onPortMessage m tabs) w) = State (roster_after m w)
  /\ posted (browser (exec (onPortMessage m tabs) w)) =
     posted (browser (roster_after m w))
  /\ contextMenus (browser (exec (onPortMessage m tabs) w)) =
     menu_for (hd_error tabs) (devices (State (roster_after m w))).
Proof.
  rewrite onPortMessage_exec, createContextMenu_menu.
  destruct (createContextMenu_ui (hd_error tabs)
              (exec (forwardPortMessage m) (roster_after m w)))
    as (HS2 & _ & _ & _ & _ & HP2).
  destruct (forwardPortMessage_ui m (roster_after m w))
    as (HS1 & _ & _ & _ & _ & HP1).
  unfold exec in *. rewrite HS2, HP2, HS1, HP1. repeat split.
Qed.

(** X8.  A message whose type is neither [connected] nor [devices] changes
    nothing of the roster and posts nothing on the channel; the menu is
    rebuilt from the roster as it was. *)
Theorem onPortMessage_other_type (w : World) (m : Message) (tabs : list Tab) :
  type_is m "connected" = false ->
  type_is m "devices" = false ->
  State (exec (onPortMessage m tabs) w) = State w
  /\ posted (browser (exec (onPortMessage m tabs) w)) = posted (browser w)
  /\ contextMenus (browser (exec (onPortMessage m tabs) w)) =
     contextMenus (browser (exec (createContextMenu (hd_error tabs)) w)).
Proof.
  intros Hc Hd. destruct (onPortMessage_after m tabs w) as (HS & HP & HM).
  rewrite HS, HP, HM, createContextMenu_menu.
  unfold roster_after. rewrite Hc, Hd. repeat split.
Qed.

Lemma onPortMessage_other_type_witness :
  State (exec (onPortMessage (mkMessage (Some "ping") (DBool true)) [page])
              (with_roster [phone])) = State (with_roster [phone])
  /\ posted (browser (exec (onPortMessage (mkMessage None DUndefined) [page])
                           (with_roster [phone]))) = [].
Proof.
  split.
  - exact (proj1 (onPortMessage_other_type (with_roster [phone])
                    (mkMessage (Some "ping") (DBool true)) [page]
                    eq_refl eq_refl)).
  - exact (proj1 (proj2 (onPortMessage_other_type (with_roster [phone])
                           (mkMessage None DUndefined) [page]
                           eq_refl eq_refl))).
Defined.

(** X9.  A [devices] message replaces the roster wholesale: the flag is
    true, the device list is the message's data, whatever list was there,
    nothing is posted on the channel, and the menu is the one of the new
    list for the active tab. *)
Theorem onPortMessage_devices_replaces (w : World) (ds : Data) (tabs : list Tab) :
  State (exec (onPortMessage (mkMessage (Some "devices") ds) tabs) w) =
    mkState (DBool true) ds (port (State w))
  /\ posted (browser (exec (onPortMessage (mkMessage (Some "devices") ds) tabs) w))
     = posted (browser w)
  /\ contextMenus (browser (exec (onPortMessage (mkMessage (Some "devices") ds)
                                                tabs) w)) =
     menu_for (hd_error tabs) ds.
Proof.
  destruct (onPortMessage_after (mkMessage (Some "devices") ds) tabs w)
    as (HS & HP & HM).
  rewrite HS, HP, HM. repeat split.
Qed.

(** X10.  A [connected] message whose data is false, or missing, clears the
    device list and posts nothing; the menu is then empty whatever the
    active tab. *)
Theorem onPortMessage_not_connected (w : World) (m : Message) (tabs : list Tab) :
  type_is m "connected" = true ->
  truthy (data m) = false ->
  State (exec (onPortMessage m tabs) w) =
    mkState (data m) (DDevices []) (port (State w))
  /\ posted (browser (exec (onPortMessage m tabs) w)) = posted (browser w)
  /\ contextMenus (browser (exec (onPortMessage m tabs) w)) = [].
Proof.
  intros Hc Hd. destruct (onPortMessage_after m tabs w) as (HS & HP & HM).
  rewrite HS, HP, HM. unfold roster_after. rewrite Hc, Hd.
  repeat split. cbn [State with_State set_devices devices]. unfold menu_for.
  destruct (hd_error tabs) as [t |]; [| reflexivity].
  destruct (_ABOUT_test (tab_url t)); reflexivity.
Qed.

Lemma onPortMessage_not_connected_witness :
  contextMenus (browser (exec (onPortMessage (mkMessage (Some "connected") DUndefined)
                                             [page])
                              (with_roster [phone; tablet]))) = []
  /\ devices (State (exec (onPortMessage (mkMessage (Some "connected") (DBool false))
                                         [page])
                          (with_roster [phone; tablet]))) = DDevices [].
Proof.
  split.
  - exact (proj2 (proj2 (onPortMessage_not_connected (with_roster [phone; tablet])
                           (mkMessage (Some "connected") DUndefined) [page]
                           eq_refl eq_refl))).
  - exact (f_equal devices
             (proj1 (onPortMessage_not_connected (with_roster [phone; tablet])
                       (mkMessage (Some "connected") (DBool false)) [page]
                       eq_refl eq_refl))).
Defined.

(** ** Errors *)

(** X11.  [createContextMenu] returns whatever it is given, and logs exactly
    the TypeError it ran into, if any: a missing tab fails on [tab.url]; on
    a page that is not internal, a missing device list fails on [length] and
    a device list that is no array fails on [share]; an internal page and
    every array of devices log nothing. *)
Theorem createContextMenu_errors (w : World) (tab : option Tab) :
  fst (createContextMenu tab w) = Returned tt
  /\ console (browser (exec (createContextMenu tab) w)) =
     (console (browser w)
      ++ match tab with
         | None => [Err "Cannot read properties of undefined (reading 'url')"]
         | Some t =>
             if _ABOUT_test (tab_url t) then []
             else match devices (State w) with
                  | DUndefined =>
                      [Err "Cannot read properties of undefined (reading 'length')"]
                  | DDevices _ => []
                  | DBool _ | DShare _ _ _ =>
                      [Err "Cannot read properties of undefined (reading 'share')"]
                  end
         end)%list.
Proof.
  split; [apply createContextMenu_returns |].
  destruct tab as [t |]; [| reflexivity].
  destruct (_ABOUT_test (tab_url t)) eqn:Habout.
  - run_js. rewrite Habout. cbn. symmetry. apply app_nil_r.
  - destruct (devices (State w)) as [| b | l | dv u a] eqn:Hdev;
      try (run_js; rewrite Habout, Hdev; cbn; reflexivity).
    rewrite app_nil_r.
    destruct l as [| d [| d' l']].
    + run_js. rewrite Habout, Hdev. reflexivity.
    + run_js. rewrite Habout, Hdev. cbn.
      destruct (share d), (telephony d); reflexivity.
    + assert (Hz : is_zero (Some (Z.of_nat (List.length (d :: d' :: l')))) = false).
      { cbn [is_zero List.length]. apply Z.eqb_neq. lia. }
      assert (Hm : more_than_one (Some (Z.of_nat (List.length (d :: d' :: l'))))
                   = true).
      { cbn [more_than_one List.length]. apply Z.ltb_lt. lia. }
      unfold exec, createContextMenu, try_catch, bind at 1 2 3 4 5.
      cbv beta iota delta [contextMenus_removeAll modify url_of ret get].
      rewrite Habout. unfold length_of. cbn [State with_browser]. rewrite Hdev.
      cbv beta iota delta [ret]. rewrite Hz, Hm.
      cbv beta iota delta [contextMenus_create modify]. cbn [elements].
      match goal with
      | |- context [for_of ?l ?body ?w0] =>
          assert (Hk : keeps (same (fun w => console (browser w))) (for_of l body))
            by same_tac;
          assert (Hb : forall dv w1,
                     fst (body dv w1) = Returned tt
                     /\ contextMenus (browser (snd (body dv w1))) =
                        (contextMenus (browser w1) ++ items_under_root dv)%list);
          [ intros dv w1; unfold items_under_root;
            destruct (share dv), (telephony dv);
            (split; [reflexivity |]);
            cbv beta iota delta [bind contextMenus_create modify andb];
            cbn [snd browser with_browser contextMenus set_contextMenus];
            rewrite <- ?app_assoc; reflexivity
          | destruct (for_of_creates items_under_root body Hb l w0) as [Hr _];
            specialize (Hk w0); unfold same in Hk;
            destruct (for_of l body w0) as [[[] | e] w2];
            [ exact Hk | discriminate Hr ] ]
      end.
Qed.

(** X12.  A transport error is caught where it happens and logged once,
    unless its message is one of the two muted ones: then nothing is logged.
    So it is for [postMessage] when the port throws, and for
    [forwardPortMessage] when no page listens; both return, and both have
    made their call. *)
Theorem transport_errors_are_logged_or_muted
        (w : World) (p : Port) (m : Message) (e : Error) :
  (port (State w) = Some p -> truthy_str (type m) = true ->
   portFault (browser w) = Some e ->
   fst (postMessage (Some m) w) = Returned tt
   /\ posted (browser (exec (postMessage (Some m)) w)) =
      (posted (browser w) ++ [(p, m)])%list
   /\ console (browser (exec (postMessage (Some m)) w)) =
      (console (browser w)
       ++ if existsb (String.eqb (message e)) _MUTE then []
          else [Err (message e)])%list)
  /\ (sendFault (browser w) = Some e ->
      fst (forwardPortMessage m w) = Returned tt
      /\ sentMessages (browser (exec (forwardPortMessage m) w)) =
         (sentMessages (browser w) ++ [m])%list
      /\ console (browser (exec (forwardPortMessage m) w)) =
         (console (browser w)
          ++ if existsb (String.eqb (message e)) _MUTE then []
             else [Err (message e)])%list).
Proof.
  split.
  - intros Hp Ht Hf.
    split; [apply postMessage_returns |].
    split; [apply (postMessage_forwards w p m Hp Ht) |].
    assert (E : postMessage (Some m) w
                = try_catch (Port_postMessage p m) logError w).
    { unfold postMessage, try_catch. unfold bind at 1.
      cbv beta iota delta [get]. rewrite Hp, Ht. reflexivity. }
    unfold exec. rewrite E. unfold try_catch, Port_postMessage.
    cbv beta iota delta [bind modify get].
    cbn [browser with_browser portFault set_posted]. rewrite Hf.
    unfold throw, logError.
    destruct (existsb (String.eqb (message e)) _MUTE); cbn.
    + symmetry. apply app_nil_r.
    + reflexivity.
  - intro Hf.
    split; [apply forwardPortMessage_returns |].
    split; [apply forwardPortMessage_sent |].
    unfold exec, forwardPortMessage, try_catch, runtime_sendMessage.
    cbv beta iota delta [bind modify get].
    cbn [browser with_browser sendFault set_sentMessages]. rewrite Hf.
    unfold throw, logError.
    destruct (existsb (String.eqb (message e)) _MUTE); cbn.
    + symmetry. apply app_nil_r.
    + reflexivity.
Qed.

Lemma transport_errors_are_logged_or_muted_witness :
  console (browser (exec (postMessage (Some (mkMessage (Some "devices") DUndefined)))
                         faulty)) = [Err "boom"]
  /\ console (browser (exec (forwardPortMessage (mkMessage (Some "devices") DUndefined))
                            faulty)) = [].
Proof.
  split.
  - exact (proj2 (proj2 (proj1 (transport_errors_are_logged_or_muted
                                  faulty gsconnect
                                  (mkMessage (Some "devices") DUndefined)
                                  (mkError "boom"))
                           eq_refl eq_refl eq_refl))).
  - exact (proj2 (proj2 (proj2 (transport_errors_are_logged_or_muted
                                  faulty gsconnect
                                  (mkMessage (Some "devices") DUndefined)
                                  (mkError "Could not establish connection. Receiving end does not exist."))
                           eq_refl))).
Defined.

(** ** The popup *)

(** X13.  The popup check is a substring test on the sender's url: a sender
    whose url holds ['/popup.html'] anywhere is taken for the popup, and its
    message is handled exactly as [postMessage] handles it. *)
Theorem onPopupMessage_trusted
        (w : World) (message : option Message) (before after : string) :
  from_popup (mkSender (Some (before ++ "/popup.html" ++ after))) = true
  /\ onPopupMessage message
       (mkSender (Some (before ++ "/popup.html" ++ after))) w =
     postMessage message w.
Proof.
  assert (H : from_popup (mkSender (Some (before ++ "/popup.html" ++ after)))
              = true).
  { unfold from_popup. cbn [sender_url]. rewrite includes_app.
    destruct before; reflexivity. }
  split; [exact H |].
  unfold onPopupMessage. rewrite H.
  rewrite try_returns by apply postMessage_returns. reflexivity.
Qed.

(** ** The toolbar button *)

(** X14.  [toggleAction] makes exactly one call on the toolbar button and
    returns: with no tab it disables the button everywhere; with a tab it
    disables the button on that tab when the url starts with [chrome:] or
    [about:], and enables it there otherwise, a tab without url included.
    Nothing but the toolbar button is touched. *)
Theorem toggleAction_one_call (w : World) (tab : option Tab) :
  toggleAction tab w =
  (Returned tt,
   with_browser
     (fun b =>
        set_actionCalls
          (actionCalls b
           ++ [match tab with
               | None => Disable None
               | Some t =>
                   if _ABOUT_test (tab_url t) then Disable (Some (tab_id t))
                   else Enable (Some (tab_id t))
               end]) b) w).
Proof.
  unfold toggleAction, try_catch.
  destruct tab as [t |]; [| reflexivity].
  cbv beta iota delta [bind url_of ret].
  destruct (_ABOUT_test (tab_url t)); reflexivity.
Qed.

(** ** The listeners *)

Lemma connect_returns (w : World) : fst (connect w) = Returned tt.
Proof. apply try_logError_returns. Qed.

Lemma onDisconnect_returns (w : World) : fst (onDisconnect w) = Returned tt.
Proof. apply try_logError_returns. Qed.

(** ** The timeouts *)

Lemma onDisconnect_effects (w : World) :
  nextTimeout (browser (exec onDisconnect w)) = nextTimeout (browser w) + 1
  /\ posted (browser (exec onDisconnect w)) = posted (browser w)
  /\ nextPort (browser (exec onDisconnect w)) = nextPort (browser w)
  /\ sentMessages (browser (exec onDisconnect w)) =
     (sentMessages (browser w) ++ [mkMessage (Some "connected") (DBool false)])%list
  /\ badgeText (browser (exec onDisconnect w)) = NO_ENTRY
  /\ badgeColor (browser (exec onDisconnect w)) = [198; 40; 40; 255].
Proof.
  run_js. repeat (break_match; cbn); repeat split; congruence.
Qed.

Lemma connect_effects (w : World) :
  nextTimeout (browser (exec connect w)) = nextTimeout (browser w) + 1
  /\ posted (browser (exec connect w)) =
     (posted (browser w)
      ++ [(new_port w, mkMessage (Some "devices") DUndefined)])%list
  /\ nextPort (browser (exec connect w)) = S (nextPort (browser w))
  /\ badgeText (browser (exec connect w)) = ""
  /\ badgeColor (browser (exec connect w)) = [0; 0; 0; 0]
  /\ contextMenus (browser (exec connect w)) = contextMenus (browser w).
Proof.
  run_js. repeat (break_match; cbn); repeat split; congruence.
Qed.

Lemma NoDup_snoc {A} (l : list A) (x : A) :
  NoDup l -> ~ In x l -> NoDup (l ++ [x]).
Proof.
  induction l as [| a l IH]; intros Hl Hx; simpl.
  - constructor; [intros [] | constructor].
  - inversion Hl as [| ? ? Ha Hl']; subst. constructor.
    + intro H. apply in_app_or in H as [H | [H | []]].
      * contradiction.
      * subst. apply Hx. left. reflexivity.
    + apply IH; [exact Hl' |]. intro H. apply Hx. right. exact H.
Qed.

(** Timeouts kept by a filter keep distinct ids. *)
Lemma distinct_ids_filter (keep : Timeout -> bool) (ts : list Timeout) :
  NoDup (map timeout_id ts) -> NoDup (map timeout_id (filter keep ts)).
Proof.
  intro Hts. induction ts as [| t ts IH]; simpl; [constructor |].
  inversion Hts as [| ? ? Hfresh Hrest]; subst.
  destruct (keep t); simpl; [| apply IH; exact Hrest].
  constructor; [| apply IH; exact Hrest].
  intro Hin. apply Hfresh. apply in_map_iff in Hin as (x & Hx & Hin).
  apply in_map_iff. exists x. split; [exact Hx |].
  apply filter_In in Hin. tauto.
Qed.

Lemma without_In (timer : option Z) (l : list Timeout) (t : Timeout) :
  In t (without timer l) ->
  In t l /\ timer <> Some (timeout_id t).
Proof.
  destruct timer as [i |]; simpl; intro H.
  - apply filter_In in H as [Hin Hneq]. split; [exact Hin |].
    intro E. inversion E; subst. rewrite Z.eqb_refl in Hneq. discriminate Hneq.
  - split; [exact H | discriminate].
Qed.

Lemma without_NoDup (timer : option Z) (l : list Timeout) :
  NoDup (map timeout_id l) -> NoDup (map timeout_id (without timer l)).
Proof.
  destruct timer; simpl; [apply distinct_ids_filter | tauto].
Qed.

Lemma take_timeout_rest (i now : Z) (l rest : list Timeout) (t : Timeout) :
  take_timeout i now l = Some (t, rest) ->
  (forall x, In x rest -> In x l)
  /\ (NoDup (map timeout_id l) -> NoDup (map timeout_id rest)).
Proof.
  revert rest. induction l as [| a l IH]; intros rest H; simpl in H.
  - discriminate H.
  - destruct ((timeout_id a =? i) && (due a <=? now)).
    + inversion H; subst. split.
      * intros x Hx. right. exact Hx.
      * intro Hn. inversion Hn; assumption.
    + destruct (take_timeout i now l) as [[t' rest'] |]; [| discriminate H].
      inversion H; subst. destruct (IH rest' eq_refl) as [Hin Hnd]. split.
      * intros x [Hx | Hx]; [left; exact Hx | right; apply Hin; exact Hx].
      * intro Hn. simpl in *. inversion Hn as [| ? ? Ha Hl]; subst.
        constructor; [| apply Hnd; exact Hl].
        intro Hc. apply Ha. apply in_map_iff in Hc as (x & Hx & Hc).
        apply in_map_iff. exists x. split; [exact Hx | apply Hin; exact Hc].
Qed.

Lemma timers_ok_same (w w' : World) :
  timer_state w' = timer_state w -> timers_ok w -> timers_ok w'.
Proof.
  unfold timer_state, timers_ok. intro E. inversion E as [[E1 E2 E3 E4]].
  rewrite E1, E2, E3, E4. tauto.
Qed.

Lemma connect_timers_ok (w : World) : timers_ok w -> timers_ok (exec connect w).
Proof.
  intros (Hlt & Hnd & Htr & Hrt & Hrr).
  destruct (connect_world w) as (_ & _ & HT & HR & Hts & _).
  destruct (connect_effects w) as (Hnext & _).
  unfold timers_ok. rewrite Hts, Hnext, HT, HR.
  split; [| split; [| split; [| split]]].
  - intros t Ht. apply in_app_or in Ht as [Ht | [Ht | []]].
    + specialize (Hlt t Ht). lia.
    + subst t. unfold reset_timeout. cbn [timeout_id]. lia.
  - rewrite map_app. apply NoDup_snoc; [exact Hnd |].
    cbn [map reset_timeout timeout_id]. intro Hin.
    apply in_map_iff in Hin as (x & Hx & Hin). specialize (Hlt x Hin). lia.
  - intros t Ht Hcb. apply in_app_or in Ht as [Ht | [Ht | []]].
    + apply Htr; assumption.
    + subst t. discriminate Hcb.
  - intros i Hi. specialize (Hrt i Hi). lia.
  - intros i Hi. inversion Hi. lia.
Qed.

Lemma onDisconnect_timers_ok (w : World) :
  timers_ok w -> timers_ok (exec onDisconnect w).
Proof.
  intros (Hlt & Hnd & Htr & Hrt & Hrr).
  destruct (onDisconnect_world w) as (_ & _ & HR & HT & Hts & _).
  destruct (onDisconnect_effects w) as (Hnext & _).
  unfold timers_ok. rewrite Hts, Hnext, HT, HR.
  split; [| split; [| split; [| split]]].
  - intros t Ht. apply in_app_or in Ht as [Ht | [Ht | []]].
    + apply without_In in Ht as [Ht _]. apply without_In in Ht as [Ht _].
      specialize (Hlt t Ht). lia.
    + subst t. unfold reconnect_timeout. cbn [timeout_id]. lia.
  - rewrite map_app. apply NoDup_snoc.
    + apply without_NoDup, without_NoDup, Hnd.
    + cbn [map reconnect_timeout timeout_id]. intro Hin.
      apply in_map_iff in Hin as (x & Hx & Hin).
      apply without_In in Hin as [Hin _]. apply without_In in Hin as [Hin _].
      specialize (Hlt x Hin). lia.
  - intros t Ht Hcb. apply in_app_or in Ht as [Ht | [Ht | []]].
    + apply without_In in Ht as [Ht Hneq]. apply without_In in Ht as [Ht _].
      exfalso. apply Hneq. apply Htr; assumption.
    + subst t. reflexivity.
  - intros i Hi. inversion Hi. lia.
  - intros i Hi. discriminate Hi.
Qed.

Lemma toggleAction_timers (tab : option Tab) :
  keeps (same timer_state) (toggleAction tab).
Proof. same_tac. Qed.

Lemma normal_dispatch_timers (e : Event) :
  match e with
  | Startup | Installed | PortDisconnected | TimeoutFired _ => True
  | _ => keeps (same timer_state) (dispatch e)
  end.
Proof.
  destruct e; cbv beta iota; try exact I; unfold dispatch; same_tac.
Qed.

Lemma start_exec (w : World) :
  exec (toggleAction None ;; connect) w = exec connect (exec (toggleAction None) w).
Proof.
  unfold exec. rewrite bind_returns by apply toggleAction_returns.
  unfold exec. reflexivity.
Qed.

Lemma step_timers_ok (e : Event) (w : World) :
  timers_ok w -> timers_ok (step e w).
Proof.
  intro H. pose proof (normal_dispatch_timers e) as Hn. unfold step.
  destruct e; cbv beta iota in Hn;
    try (apply (timers_ok_same w); [exact (Hn w) | exact H]).
  - unfold dispatch. rewrite start_exec. apply connect_timers_ok.
    apply (timers_ok_same w); [exact (toggleAction_timers None w) | exact H].
  - unfold dispatch. rewrite start_exec. apply connect_timers_ok.
    apply (timers_ok_same w); [exact (toggleAction_timers None w) | exact H].
  - unfold dispatch. apply onDisconnect_timers_ok. exact H.
  - unfold dispatch.
    destruct (take_timeout i (clock (browser w)) (timeouts (browser w)))
      as [[t rest] |] eqn:Ht.
    + rewrite (fire_taken _ _ _ _ Ht).
      destruct (take_timeout_rest _ _ _ _ _ Ht) as [Hin Hnd].
      assert (Hrest : timers_ok (with_browser (set_timeouts rest) w)).
      { destruct H as (Hlt & Hno & Htr & Hrt & Hrr).
        unfold timers_ok.
        cbn [browser with_browser timeouts set_timeouts nextTimeout
             reconnectTimer reconnectResetTimer].
        split; [| split; [| split; [| split]]]; auto. }
      destruct (callback t); cbn [call].
      * apply connect_timers_ok. exact Hrest.
      * apply (timers_ok_same (with_browser (set_timeouts rest) w));
          [reflexivity | exact Hrest].
    + rewrite (fire_not_taken _ _ Ht). exact H.
Qed.

Lemma timers_ok_one_reconnect (w : World) :
  timers_ok w -> (List.length (reconnects w) <= 1)%nat.
Proof.
  intros (_ & Hnd & Htr & _). unfold reconnects.
  pose proof (distinct_ids_filter is_reconnect _ Hnd) as Hf.
  destruct (filter is_reconnect (timeouts (browser w))) as [| a [| b rest]] eqn:E;
    simpl; try lia.
  exfalso.
  assert (Ha : In a (filter is_reconnect (timeouts (browser w))))
    by (rewrite E; left; reflexivity).
  assert (Hb : In b (filter is_reconnect (timeouts (browser w))))
    by (rewrite E; right; left; reflexivity).
  apply filter_In in Ha as [Ha Hca]. apply filter_In in Hb as [Hb Hcb].
  unfold is_reconnect in Hca, Hcb.
  destruct (callback a) eqn:Ea; [| discriminate Hca].
  destruct (callback b) eqn:Eb; [| discriminate Hcb].
  pose proof (Htr a Ha Ea) as Ta. pose proof (Htr b Hb Eb) as Tb.
  rewrite Ta in Tb. inversion Tb as [Eid].
  simpl in Hf. inversion Hf as [| ? ? Hnotin _]; subst.
  apply Hnotin. left. symmetry. exact Eid.
Qed.

(** X16.  No duplicate reconnect attempts.  From a world whose timeouts are
    in order, whatever events follow (disconnects, timeouts firing,
    messages, clicks, tab changes, restarts of the connection), the
    bookkeeping stays in order and at most one reconnect timeout is armed. *)
Theorem one_reconnect_at_most (w : World) (trace : list Event) :
  timers_ok w ->
  timers_ok (run trace w)
  /\ (List.length (reconnects (run trace w)) <= 1)%nat.
Proof.
  intro H.
  assert (Hrun : timers_ok (run trace w)).
  { revert w H. induction trace as [| e rest IH]; intros w H; [exact H |].
    cbn [run]. apply IH, step_timers_ok, H. }
  split; [exact Hrun | apply timers_ok_one_reconnect, Hrun].
Qed.

Lemma timers_ok_initial : timers_ok (initial idle_browser).
Proof.
  unfold timers_ok. cbn.
  split; [intros t [] | split; [constructor | split; [intros t [] |]]].
  split; intros i Hi; discriminate Hi.
Defined.

Lemma one_reconnect_at_most_witness :
  (List.length
     (reconnects (run [Startup; PortDisconnected; PortDisconnected; Installed;
                       Elapsed 250; PortDisconnected]
                      (initial idle_browser))) <= 1)%nat.
Proof.
  exact (proj2 (one_reconnect_at_most (initial idle_browser)
                  [Startup; PortDisconnected; PortDisconnected; Installed;
                   Elapsed 250; PortDisconnected] timers_ok_initial)).
Defined.

(** X17.  [connect] is not idempotent.  Called twice with no disconnect in
    between, it opens a second port in place of the first, sends the
    [devices] request on each, and arms a second stabilization timeout
    while keeping track of the second only: the first one stays armed, and
    stays armed through the next [onDisconnect]. *)
Theorem connect_twice_leaks (w : World) :
  timers_ok w ->
  port (State (exec connect (exec connect w))) = Some (new_port (exec connect w))
  /\ new_port (exec connect w) <> new_port w
  /\ posted (browser (exec connect (exec connect w))) =
     (posted (browser w)
      ++ [(new_port w, mkMessage (Some "devices") DUndefined);
          (new_port (exec connect w), mkMessage (Some "devices") DUndefined)])%list
  /\ reconnectResetTimer (exec connect (exec connect w)) =
     Some (timeout_id (reset_timeout (exec connect w)))
  /\ timeout_id (reset_timeout (exec connect w)) <> timeout_id (reset_timeout w)
  /\ In (reset_timeout w) (timeouts (browser (exec connect (exec connect w))))
  /\ In (reset_timeout w)
        (timeouts (browser (exec onDisconnect (exec connect (exec connect w))))).
Proof.
  intros (Hlt & Hnd & Htr & Hrt & Hrr).
  destruct (connect_world w) as (HS1 & _ & HT1 & HR1 & Hts1 & _).
  destruct (connect_effects w) as (Hn1 & Hp1 & Hport1 & _).
  destruct (connect_world (exec connect w)) as (HS2 & _ & HT2 & HR2 & Hts2 & _).
  destruct (connect_effects (exec connect w)) as (Hn2 & Hp2 & _).
  destruct (onDisconnect_world (exec connect (exec connect w)))
    as (_ & _ & _ & _ & Hts3 & _).
  assert (Hin2 : In (reset_timeout w)
                    (timeouts (browser (exec connect (exec connect w))))).
  { rewrite Hts2, Hts1. apply in_or_app. left. apply in_or_app. right.
    left. reflexivity. }
  split; [rewrite HS2; unfold new_port; reflexivity |].
  split; [unfold new_port; rewrite Hport1; intro E; inversion E; lia |].
  split; [rewrite Hp2, Hp1, <- app_assoc; reflexivity |].
  split; [unfold reset_timeout; cbn [timeout_id]; exact HR2 |].
  split; [unfold reset_timeout; cbn [timeout_id]; rewrite Hn1; lia |].
  split; [exact Hin2 |].
  rewrite Hts3. apply in_or_app. left.
  rewrite HR2, HT2, HT1. unfold without.
  assert (Hkeep : forall l i, In (reset_timeout w) l ->
                    i <> nextTimeout (browser w) ->
                    In (reset_timeout w)
                       (filter (fun t => negb (timeout_id t =? i)) l)).
  { intros l i Hl Hi. apply filter_In. split; [exact Hl |].
    unfold reset_timeout. cbn [timeout_id].
    apply negb_true_iff, Z.eqb_neq. intro E. apply Hi. symmetry. exact E. }
  destruct (reconnectTimer w) as [j |] eqn:Ej.
  - apply Hkeep; [apply Hkeep; [exact Hin2 | rewrite Hn1; lia] |].
    specialize (Hrt j eq_refl). lia.
  - apply Hkeep; [exact Hin2 | rewrite Hn1; lia].
Qed.

Lemma connect_twice_leaks_witness :
  In (mkTimeout 1 cb_resetDelay 90 90)
     (timeouts (browser (exec onDisconnect
                              (exec connect (exec connect (initial idle_browser)))))).
Proof.
  exact (proj2 (proj2 (proj2 (proj2 (proj2 (proj2
           (connect_twice_leaks (initial idle_browser) timers_ok_initial))))))).
Defined.

(** ** The delay, on every trace *)

Lemma step_delay_any (e : Event) (w : World) :
  reconnectDelay (step e w) = 100
  \/ reconnectDelay (step e w) =
     if is_disconnect e then times_two (reconnectDelay w) else reconnectDelay w.
Proof.
  destruct (fires_reset e w) eqn:Hr.
  - left. destruct e; try discriminate Hr. cbn [fires_reset] in Hr.
    unfold step, dispatch.
    destruct (take_timeout i (clock (browser w)) (timeouts (browser w)))
      as [[t rest] |] eqn:Ht; [| discriminate Hr].
    rewrite (fire_taken _ _ _ _ Ht).
    destruct (callback t); [discriminate Hr | reflexivity].
  - right. apply step_delay. exact Hr.
Qed.

(** X18.  Whatever happens, resets included, the delay is the base value
    100 doubled some number [k] of times in binary64, with [k] at most the
    number of disconnects: [100 * 2^k] for [k <= 1017], and [Infinity]
    beyond.  It is never below 100 and never another number. *)
Theorem reconnectDelay_base_times_power (w : World) (trace : list Event) :
  reconnectDelay w = 100 ->
  exists k : nat,
    (k <= disconnects trace)%nat
    /\ reconnectDelay (run trace w) =
       (if (k <=? 1017)%nat then Finite (100 * 2 ^ Z.of_nat k) else Infinity).
Proof.
  intro Hbase.
  assert (G : forall tr w0 k0,
             reconnectDelay w0 = doubled k0 100 ->
             exists k : nat,
               (k <= k0 + disconnects tr)%nat
               /\ reconnectDelay (run tr w0) = doubled k 100).
  { induction tr as [| e rest IH]; intros w0 k0 H0.
    - exists k0. split; [lia | exact H0].
    - cbn [run]. rewrite disconnects_cons.
      destruct (step_delay_any e w0) as [H | H].
      + destruct (IH (step e w0) 0%nat) as (k & Hk & Hd).
        { rewrite H. reflexivity. }
        exists k. split; [destruct (is_disconnect e); lia | exact Hd].
      + destruct (is_disconnect e).
        * destruct (IH (step e w0) (S k0)) as (k & Hk & Hd).
          { rewrite H, H0. unfold doubled. symmetry. apply Nat.iter_succ. }
          exists k. split; [lia | exact Hd].
        * destruct (IH (step e w0) k0) as (k & Hk & Hd).
          { rewrite H. exact H0. }
          exists k. split; [lia | exact Hd]. }
  destruct (G trace w 0%nat) as (k & Hk & Hd).
  { rewrite Hbase. reflexivity. }
  exists k. split; [lia |]. rewrite Hd. apply doubled_base.
Qed.

Lemma reconnectDelay_base_times_power_witness :
  exists k : nat,
    (k <= 2)%nat
    /\ reconnectDelay (run [Startup; PortDisconnected; Elapsed 100;
                            TimeoutFired 2; Elapsed 180; TimeoutFired 3;
                            PortDisconnected]
                           (initial idle_browser)) =
       (if (k <=? 1017)%nat then Finite (100 * 2 ^ Z.of_nat k) else Infinity).
Proof.
  exact (reconnectDelay_base_times_power (initial idle_browser)
           [Startup; PortDisconnected; Elapsed 100; TimeoutFired 2;
            Elapsed 180; TimeoutFired 3; PortDisconnected] eq_refl).
Defined.

(** ** Disconnect and reconnect *)

Lemma take_timeout_last (i now : Z) (l : list Timeout) (t : Timeout) :
  (forall x, In x l -> timeout_id x <> i) ->
  timeout_id t = i -> due t <= now ->
  take_timeout i now (l ++ [t]) = Some (t, l).
Proof.
  intros Hl Hi Hdue. induction l as [| a l IH]; simpl.
  - rewrite Hi, Z.eqb_refl. apply Z.leb_le in Hdue. rewrite Hdue. reflexivity.
  - assert (Ha : (timeout_id a =? i) = false).
    { apply Z.eqb_neq. apply Hl. left. reflexivity. }
    rewrite Ha. cbn [andb]. rewrite IH; [reflexivity |].
    intros x Hx. apply Hl. right. exact Hx.
Qed.

(** X19.  Reconnection is automatic.  After a disconnect, once the delay of
    that moment has passed and the reconnect timeout fires, a fresh port is
    open, the [devices] request has been posted on it and on nothing else,
    and the delay stands doubled; the roster is still flagged disconnected
    until the host answers. *)
Theorem reconnect_after_delay (w : World) :
  timers_ok w ->
  let w3 := run [PortDisconnected; Elapsed (wait (reconnectDelay w));
                 TimeoutFired (nextTimeout (browser w))] w in
  port (State w3) = Some (new_port w)
  /\ posted (browser w3) =
     (posted (browser w) ++ [(new_port w, mkMessage (Some "devices") DUndefined)])%list
  /\ connected (State w3) = DBool false
  /\ reconnectDelay w3 = times_two (reconnectDelay w)
  /\ reconnects w3 = [].
Proof.
  intros Hok w3.
  destruct Hok as (Hlt & Hnd & Htr & Hrt & Hrr).
  destruct (onDisconnect_world w) as (HS & HD & HR & HT & Hts & _ & Hclock).
  destruct (onDisconnect_effects w) as (Hnext & Hposted & Hport & _).
  set (w1 := exec onDisconnect w) in *.
  set (w2 := with_browser
               (fun b => set_clock (clock b + Z.max 0 (wait (reconnectDelay w))) b)
               w1).
  set (F := without (reconnectTimer w)
              (without (reconnectResetTimer w) (timeouts (browser w)))) in *.
  assert (Htake : take_timeout (nextTimeout (browser w)) (clock (browser w2))
                    (timeouts (browser w2)) = Some (reconnect_timeout w, F)).
  { unfold w2. cbn [browser with_browser clock set_clock timeouts].
    rewrite Hts, Hclock. apply take_timeout_last.
    - intros x Hx. unfold F in Hx.
      apply without_In in Hx as [Hx _]. apply without_In in Hx as [Hx _].
      specialize (Hlt x Hx). lia.
    - reflexivity.
    - unfold reconnect_timeout. cbn [due]. lia. }
  assert (E : w3 = exec connect (with_browser (set_timeouts F) w2)).
  { unfold w3. cbn [run]. change (step PortDisconnected w) with w1.
    change (step (Elapsed (wait (reconnectDelay w))) w1) with w2.
    unfold step, dispatch. rewrite (fire_taken _ _ _ _ Htake). reflexivity. }
  set (w2' := with_browser (set_timeouts F) w2) in *.
  destruct (connect_world w2') as (HS' & HD' & _ & _ & Hts' & _).
  destruct (connect_effects w2') as (_ & Hp' & _).
  rewrite E. split; [| split; [| split; [| split]]].
  - rewrite HS'. unfold w2', w2, new_port.
    cbn [port set_port browser with_browser nextPort set_timeouts set_clock].
    rewrite Hport. reflexivity.
  - rewrite Hp'. unfold w2', w2, new_port.
    cbn [browser with_browser posted nextPort set_timeouts set_clock].
    rewrite Hposted, Hport. reflexivity.
  - rewrite HS'. unfold w2', w2.
    cbn [connected set_port State with_browser]. rewrite HS. reflexivity.
  - rewrite HD'. unfold w2', w2. cbn [reconnectDelay with_browser]. exact HD.
  - unfold reconnects. rewrite Hts'. unfold w2' at 1.
    cbn [browser with_browser timeouts set_timeouts].
    rewrite filter_app. cbn [filter reset_timeout is_reconnect callback].
    rewrite app_nil_r.
    destruct (filter is_reconnect F) as [| t rest] eqn:EF; [reflexivity |].
    exfalso.
    assert (Ht : In t (filter is_reconnect F)) by (rewrite EF; left; reflexivity).
    apply filter_In in Ht as [Ht Hc]. unfold F in Ht.
    apply without_In in Ht as [Ht Hneq]. apply without_In in Ht as [Ht _].
    unfold is_reconnect in Hc. destruct (callback t) eqn:Ecb; [| discriminate Hc].
    apply Hneq. apply Htr; assumption.
Qed.

Lemma reconnect_after_delay_witness :
  port (State (run [PortDisconnected; Elapsed 100; TimeoutFired 1]
                   (initial idle_browser))) =
  Some (mkPort "org.gnome.shell.extensions.gsconnect" 0).
Proof.
  exact (proj1 (reconnect_after_delay (initial idle_browser) timers_ok_initial)).
Defined.

(** X20.  What a disconnect shows and tells: [onDisconnect] returns, empties
    the menu, sets the badge to the no-entry sign on the red background,
    tells the popup [{type: 'connected', data: false}] once, posts nothing
    on any port, and logs what went wrong: the popup's rejection unless it
    is muted, then the browser's last error if there is one. *)
Theorem onDisconnect_announces (w : World) :
  fst (onDisconnect w) = Returned tt
  /\ contextMenus (browser (exec onDisconnect w)) = []
  /\ badgeText (browser (exec onDisconnect w)) = NO_ENTRY
  /\ badgeColor (browser (exec onDisconnect w)) = [198; 40; 40; 255]
  /\ sentMessages (browser (exec onDisconnect w)) =
     (sentMessages (browser w) ++ [mkMessage (Some "connected") (DBool false)])%list
  /\ posted (browser (exec onDisconnect w)) = posted (browser w)
  /\ console (browser (exec onDisconnect w)) =
     (console (browser w)
      ++ match sendFault (browser w) with
         | Some e => if existsb (String.eqb (message e)) _MUTE then []
                     else [Err (message e)]
         | None => []
         end
      ++ match lastError (browser w) with
         | Some e => [Warn ("Disconnected: " ++ message e)]
         | None => []
         end)%list.
Proof.
  destruct (onDisconnect_world w) as (_ & _ & _ & _ & _ & Hmenu & _).
  destruct (onDisconnect_effects w) as (_ & Hposted & _ & Hsent & Hbt & Hbc).
  split; [apply onDisconnect_returns |].
  do 5 (split; [assumption |]).
  unfold exec; autounfold with js;
    cbv [bind try_catch modify get ret throw setTimeout runtime_connectNative];
    cbn -[existsb _MUTE append].
  destruct (sendFault (browser w)) as [e |];
    [destruct (existsb (String.eqb (message e)) _MUTE) |];
    cbn -[existsb _MUTE append];
    repeat (break_match; cbn -[existsb _MUTE append]);
    rewrite ?app_nil_r, <- ?app_assoc; reflexivity.
Qed.

Lemma toggleAction_ui (tab : option Tab) : keeps ui_only (toggleAction tab).
Proof. ui_tac. Qed.

Lemma tab_activated_exec (tab : Tab) (w : World) :
  step (TabActivated tab) w =
  exec (createContextMenu (Some tab)) (exec (toggleAction (Some tab)) w).
Proof.
  unfold step, dispatch, exec.
  rewrite bind_returns by apply toggleAction_returns.
  unfold exec. reflexivity.
Qed.

(** X21.  A disconnect does not change what the next tab activation builds:
    the menu emptied by [onDisconnect] comes back, item for item, as if the
    channel were still there; and a click on it, with the port gone, posts
    nothing and leaves the warning on the console. *)
Theorem menu_returns_after_disconnect
        (w : World) (tab : Tab) (info : OnClickData) :
  contextMenus (browser (run [PortDisconnected; TabActivated tab] w)) =
  contextMenus (browser (run [TabActivated tab] w))
  /\ posted (browser (run [PortDisconnected; TabActivated tab;
                           ContextClicked info] w)) = posted (browser w)
  /\ exists lines,
       console (browser (run [PortDisconnected; TabActivated tab;
                              ContextClicked info] w)) =
       (lines ++ [Warn "Missing message parameters"])%list.
Proof.
  cbn [run]. rewrite !tab_activated_exec.
  destruct (onDisconnect_world w) as (HS & _).
  destruct (onDisconnect_effects w) as (_ & Hposted & _).
  change (step PortDisconnected w) with (exec onDisconnect w).
  set (w1 := exec onDisconnect w) in *.
  destruct (toggleAction_ui (Some tab) w1) as (HS1 & _ & _ & _ & _ & HP1).
  destruct (toggleAction_ui (Some tab) w) as (HS0 & _).
  fold (exec (toggleAction (Some tab)) w1) in HS1, HP1.
  fold (exec (toggleAction (Some tab)) w) in HS0.
  set (w2 := exec (toggleAction (Some tab)) w1) in *.
  destruct (createContextMenu_ui (Some tab) w2) as (HS2 & _ & _ & _ & _ & HP2).
  fold (exec (createContextMenu (Some tab)) w2) in HS2, HP2.
  set (w3 := exec (createContextMenu (Some tab)) w2) in *.
  assert (Hport : port (State w3) = None).
  { rewrite HS2, HS1, HS. reflexivity. }
  split; [| split].
  - unfold w3. rewrite !createContextMenu_menu, HS1, HS0, HS. reflexivity.
  - unfold step, dispatch. rewrite onContextItem_exec.
    rewrite postMessage_drops by (left; exact Hport).
    cbn [browser with_browser posted set_console].
    rewrite HP2, HP1. exact Hposted.
  - unfold step, dispatch. rewrite onContextItem_exec.
    rewrite postMessage_drops by (left; exact Hport).
    cbn [browser with_browser console set_console].
    exists (console (browser w3)). reflexivity.
Qed.

Lemma createContextMenu_no_tab_console (w : World) :
  console (browser (exec (createContextMenu None) w)) =
  (console (browser w)
   ++ [Err "Cannot read properties of undefined (reading 'url')"])%list.
Proof. reflexivity. Qed.

Lemma no_tab_devices_state (w : World) (ds : Data) :
  State (exec (onPortMessage (mkMessage (Some "devices") ds) []) w) =
    mkState (DBool true) ds (port (State w))
  /\ contextMenus (browser (exec (onPortMessage (mkMessage (Some "devices") ds) [])
                                 w)) = [].
Proof.
  destruct (onPortMessage_after (mkMessage (Some "devices") ds) [] w)
    as (HS & _ & HM).
  rewrite HS, HM. split; reflexivity.
Qed.

(** X22.  With no active tab the menu cannot be rebuilt, and the roster is
    updated all the same: after a [devices] message the flag is true and the
    list is the message's data, the menu is empty, the handler returns, and
    the last line on the console is the TypeError on [tab.url]. *)
Theorem onPortMessage_no_active_tab (w : World) (ds : Data) :
  fst (onPortMessage (mkMessage (Some "devices") ds) [] w) = Returned tt
  /\ State (exec (onPortMessage (mkMessage (Some "devices") ds) []) w) =
     mkState (DBool true) ds (port (State w))
  /\ contextMenus (browser (exec (onPortMessage (mkMessage (Some "devices") ds) [])
                                 w)) = []
  /\ exists lines,
       console (browser (exec (onPortMessage (mkMessage (Some "devices") ds) [])
                              w)) =
       (lines ++ [Err "Cannot read properties of undefined (reading 'url')"])%list.
Proof.
  split; [apply onPortMessage_returns |].
  destruct (no_tab_devices_state w ds) as (HS & HM).
  split; [exact HS |]. split; [exact HM |].
  rewrite onPortMessage_exec. cbn [hd_error].
  eexists. apply createContextMenu_no_tab_console.
Qed.

(** X23.  [connect] opens a fresh port, clears the badge, arms the
    stabilization timeout at nine tenths of the current delay and posts the
    [devices] request on the new port, whether or not the port throws; it
    leaves the connected flag, the device list, the delay, the reconnect
    timer and the menu as they were, and returns. *)
Theorem connect_opens (w : World) :
  fst (connect w) = Returned tt
  /\ State (exec connect w) =
     mkState (connected (State w)) (devices (State w)) (Some (new_port w))
  /\ posted (browser (exec connect w)) =
     (posted (browser w) ++ [(new_port w, mkMessage (Some "devices") DUndefined)])%list
  /\ badgeText (browser (exec connect w)) = ""
  /\ badgeColor (browser (exec connect w)) = [0; 0; 0; 0]
  /\ timeouts (browser (exec connect w)) =
     (timeouts (browser w)
      ++ [mkTimeout (nextTimeout (browser w)) cb_resetDelay
                    (nine_tenths (reconnectDelay w))
                    (clock (browser w) + wait (nine_tenths (reconnectDelay w)))])%list
  /\ reconnectResetTimer (exec connect w) = Some (nextTimeout (browser w))
  /\ reconnectTimer (exec connect w) = reconnectTimer w
  /\ reconnectDelay (exec connect w) = reconnectDelay w
  /\ contextMenus (browser (exec connect w)) = contextMenus (browser w).
Proof.
  destruct (connect_world w) as (HS & HD & HT & HR & Hts & _).
  destruct (connect_effects w) as (_ & Hp & _ & Hbt & Hbc & Hm).
  split; [apply connect_returns |].
  split; [rewrite HS; reflexivity |].
  repeat split; assumption.
Qed.
